(** * A deployment script: shallow embedding of [src/cdk.ts]

    The script draws a random token, uploads a packaged function to object
    storage, builds a stack description with an infrastructure framework,
    converts it to a template and submits the template to the orchestration
    service.

    The process environment (clock, random source, the two remote services)
    is an explicit [World]; every interaction with it is recorded, together
    with its outcome, in a trace of [Event]s.  The framework's construct tree
    is an explicit store threaded through the stack constructor. *)

From Stdlib Require Import String Ascii List ZArith Lia Bool.
From Stdlib.Strings Require Import Byte.
From Stdlib Require Import Decimal DecimalString DecimalZ DecimalPos.
Import ListNotations.

Local Open Scope string_scope.
Local Open Scope list_scope.

Set Implicit Arguments.

(* ===================================================================== *)
(** ** Strings, bytes and numbers as the platform prints them *)
(* ===================================================================== *)

(** [Buffer.prototype.toString('hex')]: two lowercase digits per byte, the
    high nibble first. *)
Definition hexDigit (n : N) : ascii :=
  match n with
  | 0%N => "0" | 1%N => "1" | 2%N => "2" | 3%N => "3"
  | 4%N => "4" | 5%N => "5" | 6%N => "6" | 7%N => "7"
  | 8%N => "8" | 9%N => "9" | 10%N => "a" | 11%N => "b"
  | 12%N => "c" | 13%N => "d" | 14%N => "e" | _ => "f"
  end%char.

Definition hexOfByte (b : byte) : string :=
  let n := Byte.to_N b in
  String (hexDigit (N.div n 16)) (String (hexDigit (N.modulo n 16)) EmptyString).

Fixpoint toStringHex (buf : list byte) : string :=
  match buf with
  | [] => EmptyString
  | b :: rest => hexOfByte b ++ toStringHex rest
  end.

(** A number interpolated into a template literal, [`${n}`], for an integral
    [n]: its decimal digits, with a leading minus sign when negative. *)
Definition numberToString (n : Z) : string :=
  NilZero.string_of_int (Z.to_int n).

(** Character classes of the stack-name pattern quoted in [main]:
    [[a-zA-Z][-a-zA-Z0-9]*]. *)
Definition inRange (lo hi : N) (c : ascii) : bool :=
  let n := N_of_ascii c in (N.leb lo n && N.leb n hi)%bool.

Definition isDigit (c : ascii) : bool := inRange 48 57 c.
Definition isLetter (c : ascii) : bool := (inRange 65 90 c || inRange 97 122 c)%bool.
Definition isNameChar (c : ascii) : bool :=
  (Ascii.eqb c "-" || isLetter c || isDigit c)%bool.
Definition isLowerHex (c : ascii) : bool := (isDigit c || inRange 97 102 c)%bool.

Fixpoint allChars (p : ascii -> bool) (s : string) : bool :=
  match s with
  | EmptyString => true
  | String c rest => (p c && allChars p rest)%bool
  end.

(** The anchored pattern [^[a-zA-Z][-a-zA-Z0-9]*$]. *)
Definition matchesStackName (s : string) : bool :=
  match s with
  | EmptyString => false
  | String c rest => (isLetter c && allChars isNameChar rest)%bool
  end.

(* ===================================================================== *)
(** ** Constants of the script *)
(* ===================================================================== *)

Definition REGION : string := "eu-central-1".
Definition LAMBDA_BUCKET : string := "cdk-test-tfn-lambdas".

(* ===================================================================== *)
(** ** Exceptions *)
(* ===================================================================== *)

(** A thrown JavaScript [Error]: nothing in the script inspects one, so only
    its name and message are kept. *)
Record Exception := { errName : string; errMessage : string }.

Definition Error (msg : string) : Exception :=
  {| errName := "Error"; errMessage := msg |}.

(* ===================================================================== *)
(** ** The infrastructure framework: constructs used by the script *)
(* ===================================================================== *)

(** A string that may carry deploy-time references.  The framework hands out
    attributes of resources it has not created yet as numbered tokens; a
    template literal around such an attribute yields literal text
    interleaved with tokens. *)
Inductive Fragment :=
| Lit (text : string)
| Tok (number : nat) (resource : string).

Definition TokenString := list Fragment.

Module s3.
Record IBucket := { nodeId : string; bucketArn : string; bucketName : string }.
End s3.

Module iam.
Inductive Principal := ServicePrincipal (service : string).
Record PolicyStatement :=
  { actions : list string; resources : list string }.
Record RoleProps := { assumedBy : Principal; description : string }.
Record Role := { props : RoleProps; policy : list PolicyStatement }.
End iam.

Module lambda.
Inductive Runtime := NODEJS_12_X | NODEJS_14_X | NODEJS_16_X.
Record S3Code := { bucket : s3.IBucket; key : string }.
(** [role] is the construct id of the role object: the role is mutated
    after the function is created, and the function sees the change. *)
Record FunctionProps :=
  { runtime : Runtime; handler : string; code : S3Code; role : string }.
Record Function :=
  { nodeId : string; props : FunctionProps; functionName : TokenString }.
End lambda.

Inductive RemovalPolicy := DESTROY | RETAIN | SNAPSHOT.

Module logs.
Inductive RetentionDays :=
  ONE_DAY | THREE_DAYS | FIVE_DAYS | ONE_WEEK | TWO_WEEKS | ONE_MONTH.
Record LogGroupProps :=
  { logGroupName : TokenString;
    retention : RetentionDays;
    removalPolicy : RemovalPolicy }.
End logs.

Module apigwv2.
Inductive HttpMethod :=
  ANY | DELETE | GET | HEAD | OPTIONS | PATCH | POST | PUT.
Inductive PayloadFormatVersion := VERSION_1_0 | VERSION_2_0.
Record HttpLambdaIntegration :=
  { id : string;
    handler : lambda.Function;
    payloadFormatVersion : PayloadFormatVersion }.
Record AddRoutesOptions :=
  { path : string;
    methods : list HttpMethod;
    integration : HttpLambdaIntegration }.
Record HttpRoute :=
  { routePath : string;
    routeMethod : HttpMethod;
    routeIntegration : HttpLambdaIntegration }.
Record HttpApi := { routes : list HttpRoute }.
End apigwv2.

(** A child of the stack in the construct tree. *)
Inductive Construct :=
| CBucket (b : s3.IBucket)
| CRole (r : iam.Role)
| CFunction (f : lambda.Function)
| CLogGroup (g : logs.LogGroupProps)
| CHttpApi (a : apigwv2.HttpApi).

(** The stack description: the stack's children by construct id, in
    creation order. *)
Definition Stack := list (string * Construct).

(** What a construct operation can touch: the stack under construction
    ([this]) and the framework's process-wide token counter. *)
Record Scope := { children : Stack; nextToken : nat }.

Definition Cdk (A : Type) : Type := Scope -> Exception + (A * Scope).

Definition cdkRet {A} (a : A) : Cdk A := fun sc => inr (a, sc).

Definition cdkBind {A B} (m : Cdk A) (k : A -> Cdk B) : Cdk B :=
  fun sc =>
    match m sc with
    | inl e => inl e
    | inr (a, sc') => k a sc'
    end.

Declare Scope cdk_scope.
Delimit Scope cdk_scope with cdk.
Notation "x <- m ;; k" := (cdkBind m (fun x => k))
  (at level 61, m at next level, right associativity) : cdk_scope.
Notation "m ;; k" := (cdkBind m (fun _ => k))
  (at level 61, right associativity) : cdk_scope.

(** Construct ids cannot hold the path separator: it is replaced. *)
Fixpoint sanitizeId (id : string) : string :=
  match id with
  | EmptyString => EmptyString
  | String c rest =>
      if Ascii.eqb c "/" then String "-" (String "-" (sanitizeId rest))
      else String c (sanitizeId rest)
  end.

Fixpoint tryFindChild (id : string) (cs : Stack) : option Construct :=
  match cs with
  | [] => None
  | (k, c) :: rest => if String.eqb k id then Some c else tryFindChild id rest
  end.

(** The framework keeps the children of a scope in a plain object and asks
    whether an id is [in] it, so the keys every object inherits count as
    taken from the start. *)
Definition objectPrototypeKeys : list string :=
  ["constructor"; "__defineGetter__"; "__defineSetter__"; "hasOwnProperty";
   "__lookupGetter__"; "__lookupSetter__"; "isPrototypeOf";
   "propertyIsEnumerable"; "toString"; "valueOf"; "__proto__";
   "toLocaleString"].

Definition isTaken (id : string) (cs : Stack) : bool :=
  match tryFindChild id cs with
  | Some _ => true
  | None => existsb (String.eqb id) objectPrototypeKeys
  end.

(** Attaching a construct to the stack: ids are non-empty and not taken
    within their scope, otherwise the constructor throws. *)
Definition addChild (id : string) (c : string -> Construct) : Cdk string :=
  fun sc =>
    let id' := sanitizeId id in
    if String.eqb id' EmptyString then
      inl (Error "Only root constructs may have an empty ID")
    else if isTaken id' (children sc) then
      inl (Error ("There is already a Construct with name '" ++ id'
                  ++ "' in SingleDeploymentStack [Default]"))
    else
      inr (id', {| children := children sc ++ [(id', c id')];
                   nextToken := nextToken sc |}).

Definition freshToken : Cdk nat :=
  fun sc => inr (nextToken sc,
                 {| children := children sc; nextToken := S (nextToken sc) |}).

Fixpoint updateChild (id : string) (f : Construct -> Construct) (cs : Stack)
  : Stack :=
  match cs with
  | [] => []
  | (k, c) :: rest =>
      if String.eqb k id then (k, f c) :: rest
      else (k, c) :: updateChild id f rest
  end.

Definition mutate (id : string) (f : Construct -> Construct) : Cdk unit :=
  fun sc => inr (tt, {| children := updateChild id f (children sc);
                        nextToken := nextToken sc |}).

Local Open Scope cdk_scope.

(** [String.prototype.split] on one separator character. *)
Fixpoint splitChar (sep : ascii) (s : string) : list string :=
  match s with
  | EmptyString => [EmptyString]
  | String c rest =>
      if Ascii.eqb c sep then EmptyString :: splitChar sep rest
      else match splitChar sep rest with
           | [] => [String c EmptyString]
           | first :: others => String c first :: others
           end
  end.

Fixpoint indexOf (c : ascii) (s : string) : option nat :=
  match s with
  | EmptyString => None
  | String x rest =>
      if Ascii.eqb x c then Some 0 else option_map S (indexOf c rest)
  end.

(** The resource of an ARN's sixth component: the text before its first
    slash; when the component starts with a slash, the text between that
    slash and the next one; the whole component when there is no such
    slash. *)
Definition resourceOf (sixth : string) : string :=
  match sixth with
  | EmptyString => EmptyString
  | String c rest =>
      if Ascii.eqb c "/" then
        match indexOf "/" rest with
        | Some j => substring 0 j rest
        | None => sixth
        end
      else
        match indexOf "/" sixth with
        | Some i => substring 0 i sixth
        | None => sixth
        end
  end.

Definition dquote : string := String (ascii_of_nat 34) EmptyString.

(** The [resource] of an ARN as the framework splits it: the ARN starts
    with [arn:], its second and third components are present and so is the
    sixth, which holds the resource. *)
Definition splitArnResource (arn : string) : Exception + string :=
  if negb (prefix "arn:" arn) then
    inl (Error ("ARNs must start with " ++ dquote ++ "arn:" ++ dquote
                ++ " and have at least 6 components: " ++ arn))
  else
    let components := splitChar ":" arn in
    if String.eqb (nth 1 components EmptyString) EmptyString then
      inl (Error ("The `partition` component (2nd component) of an ARN is required: "
                  ++ arn))
    else if String.eqb (nth 2 components EmptyString) EmptyString then
      inl (Error ("The `service` component (3rd component) of an ARN is required: "
                  ++ arn))
    else if String.eqb (nth 5 components EmptyString) EmptyString then
      inl (Error ("The `resource` component (6th component) of an ARN is required: "
                  ++ arn))
    else inr (resourceOf (nth 5 components EmptyString)).

(** The naming rules the framework checks on a bucket name. *)
Definition isLower (c : ascii) : bool := inRange 97 122 c.

Definition isBucketChar (c : ascii) : bool :=
  (isLower c || isDigit c || Ascii.eqb c "." || Ascii.eqb c "-")%bool.

Definition isBucketEdge (c : ascii) : bool := (isLower c || isDigit c)%bool.

Fixpoint lastChar (s : string) : option ascii :=
  match s with
  | EmptyString => None
  | String c EmptyString => Some c
  | String _ rest => lastChar rest
  end.

Fixpoint contains (pattern s : string) : bool :=
  (prefix pattern s
   || match s with
      | EmptyString => false
      | String _ rest => contains pattern rest
      end)%bool.

Definition isShortNumber (part : string) : bool :=
  (Nat.leb 1 (String.length part) && Nat.leb (String.length part) 3
   && allChars isDigit part)%bool.

Definition resemblesIpAddress (s : string) : bool :=
  match splitChar "." s with
  | [a; b; c; d] =>
      (isShortNumber a && isShortNumber b && isShortNumber c && isShortNumber d)%bool
  | _ => false
  end.

Definition validBucketName (name : string) : bool :=
  (Nat.leb 3 (String.length name) && Nat.leb (String.length name) 63
   && allChars isBucketChar name
   && match name with
      | String c _ => isBucketEdge c
      | EmptyString => false
      end
   && match lastChar name with
      | Some c => isBucketEdge c
      | None => false
      end
   && negb (contains ".-" name || contains "-." name || contains ".." name)
   && negb (resemblesIpAddress name))%bool.

(** The bucket name the framework derives from an ARN, or the exception it
    throws.  Of the message of an invalid name only the first line is kept;
    the lines after it list the rules that were broken. *)
Definition importedBucketName (bucketArn : string) : Exception + string :=
  match splitArnResource bucketArn with
  | inl e => inl e
  | inr name =>
      if String.eqb name EmptyString then inl (Error "Bucket name is required")
      else if validBucketName name then inr name
      else inl (Error ("Invalid S3 bucket name (value: " ++ name ++ ")"))
  end.

Definition throwOr {A} (r : Exception + A) : Cdk A :=
  fun sc =>
    match r with
    | inl e => inl e
    | inr a => inr (a, sc)
    end.

(** [Bucket.fromBucketArn(scope, id, bucketArn)]: an existing bucket.  Its
    name is derived from the ARN and checked before the construct is
    attached. *)
Definition Bucket_fromBucketArn (id : string) (bucketArn : string)
  : Cdk s3.IBucket :=
  name <- throwOr (importedBucketName bucketArn) ;;
  let make i :=
    {| s3.nodeId := i; s3.bucketArn := bucketArn; s3.bucketName := name |} in
  id' <- addChild id (fun i => CBucket (make i)) ;;
  cdkRet (make id').

(** [new Role(scope, id, props)]: a role without permissions yet.  The
    result is the handle (construct id) of the mutable role object. *)
Definition new_Role (id : string) (props : iam.RoleProps) : Cdk string :=
  addChild id (fun _ => CRole {| iam.props := props; iam.policy := [] |}).

(** [role.addToPolicy(statement)] appends to the role's own policy. *)
Definition Role_addToPolicy (role : string) (statement : iam.PolicyStatement)
  : Cdk unit :=
  mutate role (fun c =>
    match c with
    | CRole r =>
        CRole {| iam.props := iam.props r;
                 iam.policy := iam.policy r ++ [statement] |}
    | other => other
    end).

(** [new lambda.Function(scope, id, props)].  The script passes no
    [functionName], so the function's name is chosen at deployment and the
    [functionName] attribute is a token standing for it.  The framework
    numbers all its tokens from one counter; only this token is visible to
    the script, so the counter is threaded as the number this token gets,
    whatever other tokens the framework hands out around it. *)
Definition new_Function (id : string) (props : lambda.FunctionProps)
  : Cdk lambda.Function :=
  n <- freshToken ;;
  let make i :=
    {| lambda.nodeId := i; lambda.props := props;
       lambda.functionName := [Tok n i] |} in
  id' <- addChild id (fun i => CFunction (make i)) ;;
  cdkRet (make id').

(** [new LogGroup(scope, id, props)]. *)
Definition new_LogGroup (id : string) (props : logs.LogGroupProps)
  : Cdk string :=
  addChild id (fun _ => CLogGroup props).

(** [new HttpApi(scope, id, {})]: a gateway without routes. *)
Definition new_HttpApi (id : string) : Cdk string :=
  addChild id (fun _ => CHttpApi {| apigwv2.routes := [] |}).

(** [httpApi.addRoutes(options)]: one route per listed method. *)
Definition HttpApi_addRoutes (api : string) (options : apigwv2.AddRoutesOptions)
  : Cdk unit :=
  let added :=
    map (fun m => {| apigwv2.routePath := apigwv2.path options;
                     apigwv2.routeMethod := m;
                     apigwv2.routeIntegration := apigwv2.integration options |})
        (apigwv2.methods options) in
  mutate api (fun c =>
    match c with
    | CHttpApi a => CHttpApi {| apigwv2.routes := apigwv2.routes a ++ added |}
    | other => other
    end).

(* ===================================================================== *)
(** ** Stack definition *)
(* ===================================================================== *)

Record SingleDeploymentProps :=
  { deploymentName : string;
    lambdaBucketName : string;
    functionName : string }.

(** The body of the [SingleDeploymentStack] constructor, after [super()]. *)
Definition SingleDeploymentStack_constructor (props : SingleDeploymentProps)
  : Cdk unit :=
  (* External S3 bucket where the code for the Lambda is stored *)
  lambdaBucket <- Bucket_fromBucketArn "lambda-storage"
                    ("arn:aws:s3:::" ++ lambdaBucketName props) ;;
  let internalFunctionName := "helloWorld" in
  let functionCode :=
    {| lambda.bucket := lambdaBucket;
       lambda.key := functionName props ++ ".zip" |} in
  lambdaRole <- new_Role "Role"
                  {| iam.assumedBy := iam.ServicePrincipal "lambda.amazonaws.com";
                     iam.description := "Example role" |} ;;
  (* Lambda *)
  lambdaFn <- new_Function internalFunctionName
                {| lambda.runtime := lambda.NODEJS_14_X;
                   lambda.handler := "index.handler";
                   lambda.code := functionCode;
                   lambda.role := lambdaRole |} ;;
  (* LogGroup for Lambda *)
  new_LogGroup ("logGroup" ++ internalFunctionName)
    {| logs.logGroupName := Lit "/aws/lambda/" :: lambda.functionName lambdaFn;
       logs.retention := logs.FIVE_DAYS;
       logs.removalPolicy := DESTROY |} ;;
  Role_addToPolicy lambdaRole
    {| iam.actions := ["logs:PutLogEvents"; "logs:CreateLogStream"];
       iam.resources := ["arn:aws:logs:*:*:log-group:/aws/lambda/*"] |} ;;
  (* API Gateway *)
  httpApi <- new_HttpApi (deploymentName props) ;;
  let lambdaIntegration :=
    {| apigwv2.id := "lambda";
       apigwv2.handler := lambdaFn;
       apigwv2.payloadFormatVersion := apigwv2.VERSION_2_0 |} in
  HttpApi_addRoutes httpApi
    {| apigwv2.path := "/{proxy+}";
       apigwv2.methods := [apigwv2.ANY];
       apigwv2.integration := lambdaIntegration |}.

(** [new SingleDeploymentStack(props)], in a process whose framework has
    counter gives the number [tokens] next: the finished stack description, or
    the exception the constructor threw. *)
Definition SingleDeploymentStack (tokens : nat) (props : SingleDeploymentProps)
  : Exception + Stack :=
  match SingleDeploymentStack_constructor props
          {| children := []; nextToken := tokens |} with
  | inl e => inl e
  | inr (_, sc) => inr (children sc)
  end.

Local Close Scope cdk_scope.

(** Reading resource declarations back from a stack description. *)
Definition theFunction (s : Stack) : option lambda.Function :=
  match tryFindChild "helloWorld" s with
  | Some (CFunction f) => Some f
  | _ => None
  end.

Definition theLogGroup (s : Stack) : option logs.LogGroupProps :=
  match tryFindChild "logGrouphelloWorld" s with
  | Some (CLogGroup g) => Some g
  | _ => None
  end.

Definition theRole (s : Stack) : option iam.Role :=
  match tryFindChild "Role" s with
  | Some (CRole r) => Some r
  | _ => None
  end.


(* ===================================================================== *)
(** ** Service clients *)
(* ===================================================================== *)

(** [fs.ReadStream]: opened lazily, so creating one reads nothing yet. *)
Record ReadStream := { streamPath : string }.

Record PutObjectCommand :=
  { Bucket : string; Key : string; Body : ReadStream }.

Record PutObjectCommandOutput := { ETag : string }.

Inductive Capability :=
  CAPABILITY_AUTO_EXPAND | CAPABILITY_IAM | CAPABILITY_NAMED_IAM.

Record CreateStackCommand :=
  { StackName : string;
    TemplateBody : string;
    Capabilities : list Capability }.

Record CreateStackCommandOutput := { StackId : string }.

(* ===================================================================== *)
(** ** The process environment *)
(* ===================================================================== *)

(** Everything a run reads from outside the script.  A client's [send]
    settles with whatever the world answers for the command: a response, or
    the exception the returned promise is rejected with (whatever its cause:
    the body could not be read, the transport failed, the service refused). *)
Record World :=
  { now : Z;                                  (* [+new Date()] *)
    randomSource : nat -> byte;               (* the process-wide CSPRNG *)
    dirname : string;                         (* [__dirname] *)
    cdkTokens : nat;                          (* the framework's token counter *)
    s3Service : string -> PutObjectCommand ->
                Exception + PutObjectCommandOutput;
    cloudFormationService : string -> CreateStackCommand ->
                Exception + CreateStackCommandOutput }.

(** Code the script imports but that is not part of it: [toCloudFormation]
    from [./utils], and the platform's [JSON.stringify] and [path.join].
    They are parameters of the model; [toCloudFormation] receives the stack
    description and nothing else, and may throw. *)
Record Imports :=
  { Template : Type;
    toCloudFormation : Stack -> Exception + Template;
    JSON_stringify : Template -> option nat -> string;
    pathJoin : string -> string -> string }.

Inductive LogArg :=
| LogString (s : string)
| LogResponse (r : CreateStackCommandOutput).

(** One completed interaction with the environment, with its outcome. *)
Inductive Event :=
| DateNow (ms : Z)
| RandomBytes (size : nat) (buf : list byte)
| CreateReadStream (path : string)
| S3Send (region : string) (command : PutObjectCommand)
         (outcome : Exception + PutObjectCommandOutput)
| ConsoleLog (args : list LogArg)
| CloudFormationSend (region : string) (command : CreateStackCommand)
         (outcome : Exception + CreateStackCommandOutput).

(** An [async] computation: in a given world it leaves a trace and either
    resolves with a value or rejects with an exception.  [await] is [bind]:
    the continuation starts only once the awaited computation has settled,
    and does not start at all when it was rejected. *)
Definition IO (A : Type) : Type := World -> list Event * (Exception + A).

Definition ret {A} (a : A) : IO A := fun _ => ([], inr a).

Definition bind {A B} (m : IO A) (k : A -> IO B) : IO B :=
  fun w =>
    match m w with
    | (t, inl e) => (t, inl e)
    | (t, inr a) => let (t', r) := k a w in (t ++ t', r)
    end.

Definition settle {A} (r : Exception + A) : IO A := fun _ => ([], r).

Declare Scope io_scope.
Delimit Scope io_scope with io.
Notation "x <- m ;; k" := (bind m (fun x => k))
  (at level 61, m at next level, right associativity) : io_scope.
Notation "m ;; k" := (bind m (fun _ => k))
  (at level 61, right associativity) : io_scope.

Definition dateNow : IO Z :=
  fun w => ([DateNow (now w)], inr (now w)).

Definition randomBytes (size : nat) : IO (list byte) :=
  fun w => let buf := map (randomSource w) (seq 0 size) in
           ([RandomBytes size buf], inr buf).

Definition createReadStream (path : string) : IO ReadStream :=
  fun _ => ([CreateReadStream path], inr {| streamPath := path |}).

Definition s3Client_send (region : string) (command : PutObjectCommand)
  : IO PutObjectCommandOutput :=
  fun w => let r := s3Service w region command in ([S3Send region command r], r).

Definition cloudFormationClient_send (region : string)
  (command : CreateStackCommand) : IO CreateStackCommandOutput :=
  fun w => let r := cloudFormationService w region command in
           ([CloudFormationSend region command r], r).

Definition console_log (args : list LogArg) : IO unit :=
  fun _ => ([ConsoleLog args], inr tt).

Definition cdkTokenCounter : IO nat := fun w => ([], inr (cdkTokens w)).

Definition readDirname : IO string := fun w => ([], inr (dirname w)).

Local Open Scope io_scope.

(* ===================================================================== *)
(** ** Utils *)
(* ===================================================================== *)

Definition generateUUID : IO string :=
  buf <- randomBytes 4 ;;
  ret (toStringHex buf).

(* ===================================================================== *)
(** ** Stack generation and submission *)
(* ===================================================================== *)

(** How the process ends once nothing is pending. *)
Inductive Completion :=
| Completed
| UnhandledRejection (reason : Exception).

Module GenerateStackOptions.
Record t := { deploymentName : string; lambdaBucketName : string }.
End GenerateStackOptions.

Section Script.

Variable I : Imports.

Definition generateStack (options : GenerateStackOptions.t)
  : IO (Template I) :=
  let deploymentName := GenerateStackOptions.deploymentName options in
  let lambdaBucketName := GenerateStackOptions.lambdaBucketName options in
  (* Upload the source of the function *)
  uuid <- generateUUID ;;
  let functionName := (deploymentName ++ "_" ++ uuid)%string in
  dir <- readDirname ;;
  body <- createReadStream (pathJoin I dir "../lambda.zip") ;;
  let putObjectCommand :=
    {| Bucket := lambdaBucketName;
       Key := functionName ++ ".zip";
       Body := body |} in
  s3Client_send REGION putObjectCommand ;;
  tokens <- cdkTokenCounter ;;
  stack <- settle (SingleDeploymentStack tokens
                     {| deploymentName := deploymentName;
                        functionName := functionName;
                        lambdaBucketName := lambdaBucketName |}) ;;
  settle (toCloudFormation I stack).

Definition main : IO unit :=
  (* Stackname must match the following pattern: [a-zA-Z][-a-zA-Z0-9]* *)
  ms <- dateNow ;;
  let deploymentName := ("tfn-" ++ numberToString ms)%string in
  template <- generateStack
                {| GenerateStackOptions.deploymentName := deploymentName;
                   GenerateStackOptions.lambdaBucketName := LAMBDA_BUCKET |} ;;
  console_log [LogString "template: ";
               LogString (JSON_stringify I template (Some 2))] ;;
  let command :=
    {| StackName := deploymentName;
       TemplateBody := JSON_stringify I template None;
       Capabilities := [CAPABILITY_IAM] |} in
  response <- cloudFormationClient_send REGION command ;;
  console_log [LogResponse response].

(** The last statement of the module, [main();]: the promise is dropped, so
    a rejection finds no handler. *)
Definition script : World -> list Event * Completion :=
  fun w =>
    match main w with
    | (t, inl e) => (t, UnhandledRejection e)
    | (t, inr _) => (t, Completed)
    end.

End Script.

Local Close Scope io_scope.

(* ===================================================================== *)
(** ** Observations on stack descriptions and traces *)
(* ===================================================================== *)

(** The text of a token-bearing string, when it has one before deployment. *)
Fixpoint asLiteral (s : TokenString) : option string :=
  match s with
  | [] => Some EmptyString
  | Lit text :: rest => option_map (append text) (asLiteral rest)
  | Tok _ _ :: _ => None
  end.

(** Forgetting the numbers the framework gave to its tokens. *)
Definition eraseFragment (f : Fragment) : Fragment :=
  match f with
  | Lit text => Lit text
  | Tok _ resource => Tok 0 resource
  end.

Definition eraseFunction (f : lambda.Function) : lambda.Function :=
  {| lambda.nodeId := lambda.nodeId f;
     lambda.props := lambda.props f;
     lambda.functionName := map eraseFragment (lambda.functionName f) |}.

Definition eraseRoute (r : apigwv2.HttpRoute) : apigwv2.HttpRoute :=
  {| apigwv2.routePath := apigwv2.routePath r;
     apigwv2.routeMethod := apigwv2.routeMethod r;
     apigwv2.routeIntegration :=
       {| apigwv2.id := apigwv2.id (apigwv2.routeIntegration r);
          apigwv2.handler :=
            eraseFunction (apigwv2.handler (apigwv2.routeIntegration r));
          apigwv2.payloadFormatVersion :=
            apigwv2.payloadFormatVersion (apigwv2.routeIntegration r) |} |}.

Definition eraseConstruct (c : Construct) : Construct :=
  match c with
  | CBucket b => CBucket b
  | CRole r => CRole r
  | CFunction f => CFunction (eraseFunction f)
  | CLogGroup g =>
      CLogGroup {| logs.logGroupName := map eraseFragment (logs.logGroupName g);
                   logs.retention := logs.retention g;
                   logs.removalPolicy := logs.removalPolicy g |}
  | CHttpApi a => CHttpApi {| apigwv2.routes := map eraseRoute (apigwv2.routes a) |}
  end.

Definition eraseTokens (s : Stack) : Stack :=
  map (fun kc => (fst kc, eraseConstruct (snd kc))) s.

(** The kind of resource a construct declares. *)
Inductive Kind := KBucket | KRole | KFunction | KLogGroup | KGateway (routes : nat).

Definition kindOf (c : Construct) : Kind :=
  match c with
  | CBucket _ => KBucket
  | CRole _ => KRole
  | CFunction _ => KFunction
  | CLogGroup _ => KLogGroup
  | CHttpApi a => KGateway (List.length (apigwv2.routes a))
  end.

(** Projections of a trace. *)
Definition randomTokens (t : list Event) : list string :=
  flat_map (fun e => match e with
                     | RandomBytes _ buf => [toStringHex buf]
                     | _ => []
                     end) t.

Definition putRequests (t : list Event) : list PutObjectCommand :=
  flat_map (fun e => match e with S3Send _ c _ => [c] | _ => [] end) t.

Definition createRequests (t : list Event) : list CreateStackCommand :=
  flat_map (fun e => match e with CloudFormationSend _ c _ => [c] | _ => [] end) t.

(** The name [main] gives the deployment in a world, and the options it
    passes on. *)
Definition stackNameAt (w : World) : string :=
  "tfn-" ++ numberToString (now w).

Definition mainOptions (w : World) : GenerateStackOptions.t :=
  {| GenerateStackOptions.deploymentName := stackNameAt w;
     GenerateStackOptions.lambdaBucketName := LAMBDA_BUCKET |}.

(** The command [main] submits for a template. *)
Definition createCommand (I : Imports) (w : World) (template : Template I)
  : CreateStackCommand :=
  {| StackName := stackNameAt w;
     TemplateBody := JSON_stringify I template None;
     Capabilities := [CAPABILITY_IAM] |}.

(** The bucket name the framework reads out of [arn:aws:s3:::<given>]: the
    given text up to its first colon, cut as [resourceOf] cuts. *)
Definition bucketNameOf (given : string) : string :=
  resourceOf (nth 0 (splitChar ":" given) EmptyString).

(** Characters that separate nothing in an ARN. *)
Definition notSeparator (c : ascii) : bool :=
  (negb (Ascii.eqb c "/") && negb (Ascii.eqb c ":"))%bool.

(** Ids the constructor gives to the constructs it creates before the
    gateway. *)
Definition fixedIds : list string :=
  ["lambda-storage"; "Role"; "helloWorld"; "logGrouphelloWorld"].

(** Ids the gateway cannot take: those of the four constructs created
    before it and the keys every object inherits. *)
Definition reservedId (api : string) : bool :=
  (existsb (fun k => String.eqb k api) fixedIds
   || existsb (String.eqb api) objectPrototypeKeys)%bool.

(** The stack description in closed form, for a gateway id [api]. *)
Definition describedStack (tokens : nat) (props : SingleDeploymentProps)
  (api : string) : Stack :=
  let bucket :=
    {| s3.nodeId := "lambda-storage";
       s3.bucketArn := "arn:aws:s3:::" ++ lambdaBucketName props;
       s3.bucketName := bucketNameOf (lambdaBucketName props) |} in
  let fn :=
    {| lambda.nodeId := "helloWorld";
       lambda.props :=
         {| lambda.runtime := lambda.NODEJS_14_X;
            lambda.handler := "index.handler";
            lambda.code := {| lambda.bucket := bucket;
                              lambda.key := functionName props ++ ".zip" |};
            lambda.role := "Role" |};
       lambda.functionName := [Tok tokens "helloWorld"] |} in
  [ ("lambda-storage", CBucket bucket);
    ("Role",
     CRole {| iam.props :=
                {| iam.assumedBy := iam.ServicePrincipal "lambda.amazonaws.com";
                   iam.description := "Example role" |};
              iam.policy :=
                [ {| iam.actions := ["logs:PutLogEvents"; "logs:CreateLogStream"];
                     iam.resources :=
                       ["arn:aws:logs:*:*:log-group:/aws/lambda/*"] |} ] |});
    ("helloWorld", CFunction fn);
    ("logGrouphelloWorld",
     CLogGroup {| logs.logGroupName := [Lit "/aws/lambda/"; Tok tokens "helloWorld"];
                  logs.retention := logs.FIVE_DAYS;
                  logs.removalPolicy := DESTROY |});
    (api,
     CHttpApi
       {| apigwv2.routes :=
            [ {| apigwv2.routePath := "/{proxy+}";
                 apigwv2.routeMethod := apigwv2.ANY;
                 apigwv2.routeIntegration :=
                   {| apigwv2.id := "lambda";
                      apigwv2.handler := fn;
                      apigwv2.payloadFormatVersion := apigwv2.VERSION_2_0 |} |} ] |}) ].

(* ===================================================================== *)
(** ** Concrete environments *)
(* ===================================================================== *)

(** Imports that convert a stack description to itself. *)
Definition plainImports : Imports :=
  {| Template := Stack;
     toCloudFormation := fun s => inr s;
     JSON_stringify := fun _ _ => "{}";
     pathJoin := fun a b => (a ++ "/" ++ b)%string |}.

(** A world where the clock reads [ms], every random byte is [b], and both
    services answer as given. *)
Definition worldWith (ms : Z) (b : byte)
  (upload : Exception + PutObjectCommandOutput)
  (ack : Exception + CreateStackCommandOutput) : World :=
  {| now := ms;
     randomSource := fun _ => b;
     dirname := "/app/src";
     cdkTokens := 0;
     s3Service := fun _ _ => upload;
     cloudFormationService := fun _ _ => ack |}.

Definition accepted : Exception + CreateStackCommandOutput :=
  inr {| StackId := "arn:aws:cloudformation:eu-central-1:000000000000:stack/tfn" |}.

Definition stored : Exception + PutObjectCommandOutput :=
  inr {| ETag := "d41d8cd98f00b204e9800998ecf8427e" |}.

Definition calmWorld : World := worldWith 1636000000000 x00 stored accepted.

Definition otherTokenWorld : World := worldWith 1636000000000 x01 stored accepted.

Definition rejectingWorld : World :=
  worldWith 1636000000000 x00 stored
    (inl {| errName := "AlreadyExistsException";
            errMessage := "Stack already exists" |}).

(** Properties whose bucket name holds a path. *)
Definition pathProps : SingleDeploymentProps :=
  {| deploymentName := "tfn-1636000000000";
     lambdaBucketName := "my-bucket/path";
     functionName := "tfn-1636000000000_00000000" |}.

Definition sampleProps : SingleDeploymentProps :=
  {| deploymentName := "tfn-1636000000000";
     lambdaBucketName := LAMBDA_BUCKET;
     functionName := "tfn-1636000000000_00000000" |}.

(* ===================================================================== *)
(** ** Reading hexadecimal text back *)
(* ===================================================================== *)

(** The value of a lowercase hexadecimal digit. *)
Definition hexValue (c : ascii) : option N :=
  let n := N_of_ascii c in
  if isDigit c then Some (n - 48)%N
  else if inRange 97 102 c then Some (n - 87)%N
  else None.

Definition byteOfHex (hi lo : ascii) : option byte :=
  match hexValue hi, hexValue lo with
  | Some h, Some l => Byte.of_N (16 * h + l)
  | _, _ => None
  end.

(** The bytes a string of hexadecimal digit pairs stands for. *)
Fixpoint fromHex (s : string) : option (list byte) :=
  match s with
  | EmptyString => Some []
  | String _ EmptyString => None
  | String hi (String lo rest) =>
      match byteOfHex hi lo, fromHex rest with
      | Some b, Some bs => Some (b :: bs)
      | _, _ => None
      end
  end.

(** Characters that are not the construct path separator. *)
Definition notSlash (c : ascii) : bool := negb (Ascii.eqb c "/").

(** Every request of a trace goes to the given region. *)
Definition sentTo (region : string) (e : Event) : Prop :=
  match e with
  | S3Send r _ _ => r = region
  | CloudFormationSend r _ _ => r = region
  | _ => True
  end.

(* ===================================================================== *)
(** ** Facts about strings *)
(* ===================================================================== *)

Lemma length_append (a b : string) :
  String.length (a ++ b) = String.length a + String.length b.
Proof.
  induction a as [|c a IH]; simpl; [reflexivity | now rewrite IH].
Qed.

Lemma append_assoc (a b c : string) :
  ((a ++ b) ++ c)%string = (a ++ (b ++ c))%string.
Proof.
  induction a as [|x a IH]; simpl; [reflexivity | now rewrite IH].
Qed.

(** Two concatenations with tails of equal length agree part by part. *)
Lemma append_inj (a c b d : string) :
  String.length b = String.length d ->
  (a ++ b)%string = (c ++ d)%string ->
  a = c /\ b = d.
Proof.
  revert c. induction a as [|x a IH]; intros [|y c] Hlen Heq; simpl in Heq.
  - now split.
  - exfalso. apply (f_equal String.length) in Heq. simpl in Heq.
    rewrite length_append in Heq. lia.
  - exfalso. apply (f_equal String.length) in Heq. simpl in Heq.
    rewrite length_append in Heq. lia.
  - injection Heq as -> Heq. destruct (IH c Hlen Heq) as [-> ->]. now split.
Qed.

Lemma allChars_append (p : ascii -> bool) (a b : string) :
  allChars p (a ++ b) = (allChars p a && allChars p b)%bool.
Proof.
  induction a as [|c a IH]; simpl; [reflexivity|].
  now rewrite IH, andb_assoc.
Qed.

(** Decimal printing of integers loses nothing. *)
Lemma numberToString_inj (n m : Z) :
  numberToString n = numberToString m -> n = m.
Proof.
  unfold numberToString. intros H.
  assert (Hn : forall z, NilZero.int_of_string (NilZero.string_of_int (Z.to_int z))
                         = Some (Z.to_int z)).
  { intros z. apply NilZero.isi; destruct z; simpl; try discriminate;
      intros [= E]; now apply Unsigned.to_uint_nonnil in E. }
  apply DecimalZ.to_int_inj.
  assert (E : Some (Z.to_int n) = Some (Z.to_int m))
    by now rewrite <- (Hn n), <- (Hn m), H.
  now injection E.
Qed.

(* ===================================================================== *)
(** ** The identifier generator *)
(* ===================================================================== *)

Lemma hexOfByte_lower (b : byte) : allChars isLowerHex (hexOfByte b) = true.
Proof. destruct b; reflexivity. Qed.

Lemma hexOfByte_name (b : byte) : allChars isNameChar (hexOfByte b) = true.
Proof. destruct b; reflexivity. Qed.

Lemma toStringHex_length (buf : list byte) :
  String.length (toStringHex buf) = 2 * List.length buf.
Proof.
  induction buf as [|b buf IH]; simpl; [reflexivity | lia].
Qed.

Lemma toStringHex_lower (buf : list byte) :
  allChars isLowerHex (toStringHex buf) = true.
Proof.
  induction buf as [|b buf IH]; [reflexivity|].
  change (toStringHex (b :: buf)) with (hexOfByte b ++ toStringHex buf)%string.
  now rewrite allChars_append, hexOfByte_lower, IH.
Qed.

Lemma toStringHex_name (buf : list byte) :
  allChars isNameChar (toStringHex buf) = true.
Proof.
  induction buf as [|b buf IH]; [reflexivity|].
  change (toStringHex (b :: buf)) with (hexOfByte b ++ toStringHex buf)%string.
  now rewrite allChars_append, hexOfByte_name, IH.
Qed.

(** A hex string starts with a letter exactly when the first byte's high
    nibble is at least ten. *)
Lemma matchesStackName_hex (b : byte) (buf : list byte) :
  matchesStackName (toStringHex (b :: buf)) = N.leb 160 (Byte.to_N b).
Proof.
  change (toStringHex (b :: buf)) with (hexOfByte b ++ toStringHex buf)%string.
  unfold hexOfByte. cbn [append matchesStackName allChars].
  rewrite (toStringHex_name buf), andb_true_r.
  destruct b; reflexivity.
Qed.

Lemma generateUUID_run (w : World) :
  generateUUID w =
    ([RandomBytes 4 (map (randomSource w) (seq 0 4))],
     inr (toStringHex (map (randomSource w) (seq 0 4)))).
Proof. reflexivity. Qed.

(** C1, as amended.  Every call of [generateUUID] returns, without failing,
    an 8-character string of lowercase hexadecimal digits.  Each of its
    characters is allowed after the first position of a stack name, but the
    string as a whole matches the stack-name pattern only when it happens to
    start with a letter, which is when the first random byte is 0xa0 or
    more. *)
Theorem generateUUID_hex (w : World) :
  exists id,
    generateUUID w = ([RandomBytes 4 (map (randomSource w) (seq 0 4))], inr id)
    /\ String.length id = 8
    /\ allChars isLowerHex id = true
    /\ allChars isNameChar id = true
    /\ matchesStackName id = N.leb 160 (Byte.to_N (randomSource w 0)).
Proof.
  exists (toStringHex (map (randomSource w) (seq 0 4))).
  split; [apply generateUUID_run|].
  split; [now rewrite toStringHex_length|].
  split; [apply toStringHex_lower|].
  split; [apply toStringHex_name|].
  cbn [seq map]. apply matchesStackName_hex.
Qed.

(** C1, as stated, fails: when the random source yields zero bytes the
    identifier is [00000000], which does not start with a letter. *)
Lemma generateUUID_leading_digit :
  snd (generateUUID calmWorld) = inr "00000000"
  /\ matchesStackName "00000000" = false.
Proof. split; reflexivity. Qed.

(* ===================================================================== *)
(** ** The template synthesizer *)
(* ===================================================================== *)

Lemma addChild_fresh (id id' : string) (c : string -> Construct) (sc : Scope) :
  sanitizeId id = id' ->
  String.eqb id' "" = false ->
  isTaken id' (children sc) = false ->
  addChild id c sc =
    inr (id', {| children := children sc ++ [(id', c id')];
                 nextToken := nextToken sc |}).
Proof.
  intros <- Hne Hnew. unfold addChild. now rewrite Hne, Hnew.
Qed.

Lemma splitChar_bucketArn (given : string) :
  splitChar ":" ("arn:aws:s3:::" ++ given)
    = "arn" :: "aws" :: "s3" :: "" :: "" :: splitChar ":" given.
Proof. reflexivity. Qed.

Lemma splitChar_nonempty (sep : ascii) (s : string) : splitChar sep s <> [].
Proof.
  destruct s as [|c s]; cbn [splitChar]; [discriminate|].
  destruct (Ascii.eqb c sep); [discriminate|].
  destruct (splitChar sep s); discriminate.
Qed.

(** What the framework makes of the ARN the constructor passes. *)
Lemma importedBucketName_given (given : string) :
  importedBucketName ("arn:aws:s3:::" ++ given) =
    if String.eqb (nth 0 (splitChar ":" given) "") "" then
      inl (Error ("The `resource` component (6th component) of an ARN is required: "
                  ++ "arn:aws:s3:::" ++ given))
    else if String.eqb (bucketNameOf given) "" then
      inl (Error "Bucket name is required")
    else if validBucketName (bucketNameOf given) then inr (bucketNameOf given)
    else inl (Error ("Invalid S3 bucket name (value: " ++ bucketNameOf given ++ ")")).
Proof.
  unfold importedBucketName, splitArnResource.
  rewrite splitChar_bucketArn.
  change (prefix "arn:" ("arn:aws:s3:::" ++ given)) with true.
  cbn [negb nth].
  change (String.eqb "aws" "") with false.
  change (String.eqb "s3" "") with false.
  cbv iota. fold (bucketNameOf given).
  destruct (String.eqb (nth 0 (splitChar ":" given) "") ""); reflexivity.
Qed.

Lemma importedBucketName_inr (given name : string) :
  importedBucketName ("arn:aws:s3:::" ++ given) = inr name ->
  name = bucketNameOf given /\ validBucketName name = true.
Proof.
  rewrite importedBucketName_given.
  destruct (String.eqb (nth 0 (splitChar ":" given) "") ""); [discriminate|].
  destruct (String.eqb (bucketNameOf given) ""); [discriminate|].
  destruct (validBucketName (bucketNameOf given)) eqn:V; [|discriminate].
  intros [= <-]. now split.
Qed.

(** The constructor throws when the framework finds no valid bucket name in
    the ARN, or when the gateway's id is empty or taken; otherwise it builds
    the five constructs of [describedStack]. *)
Lemma SingleDeploymentStack_cases (tokens : nat) (props : SingleDeploymentProps) :
  let api := sanitizeId (deploymentName props) in
  SingleDeploymentStack tokens props =
    match importedBucketName ("arn:aws:s3:::" ++ lambdaBucketName props) with
    | inl e => inl e
    | inr _ =>
        if String.eqb api "" then
          inl (Error "Only root constructs may have an empty ID")
        else if reservedId api then
          inl (Error ("There is already a Construct with name '" ++ api
                      ++ "' in SingleDeploymentStack [Default]"))
        else inr (describedStack tokens props api)
    end.
Proof.
  intros api. unfold SingleDeploymentStack, SingleDeploymentStack_constructor.
  unfold Bucket_fromBucketArn, new_Role, new_Function, new_LogGroup,
    Role_addToPolicy, new_HttpApi, HttpApi_addRoutes, mutate, freshToken, cdkRet,
    throwOr.
  unfold cdkBind.
  destruct (importedBucketName _) as [e|name] eqn:Hname; [reflexivity|].
  apply importedBucketName_inr in Hname. destruct Hname as [-> _].
  rewrite addChild_fresh with (id' := "lambda-storage") by reflexivity.
  rewrite addChild_fresh with (id' := "Role") by reflexivity.
  rewrite addChild_fresh with (id' := "helloWorld") by reflexivity.
  rewrite addChild_fresh with (id' := "logGrouphelloWorld") by reflexivity.
  unfold addChild. fold api. cbn [children nextToken lambda.functionName].
  match goal with
  | |- context [isTaken api ?L] =>
      let L' := eval simpl in L in change L with L'
  end.
  destruct (String.eqb api "") eqn:E0; [reflexivity|].
  unfold reservedId, fixedIds, isTaken. cbn [tryFindChild existsb].
  destruct (String.eqb "lambda-storage" api) eqn:E1; [reflexivity|].
  destruct (String.eqb "Role" api) eqn:E2; [reflexivity|].
  destruct (String.eqb "helloWorld" api) eqn:E3; [reflexivity|].
  destruct (String.eqb "logGrouphelloWorld" api) eqn:E4; [reflexivity|].
  cbn [orb].
  match goal with
  | |- context [if ?b then _ else _] => destruct b; [reflexivity|]
  end.
  cbn [orb children nextToken List.app updateChild map apigwv2.methods
       apigwv2.path apigwv2.integration apigwv2.routes].
  rewrite E1, E2, E3, E4, String.eqb_refl. reflexivity.
Qed.

Lemma SingleDeploymentStack_built (tokens : nat) (props : SingleDeploymentProps)
  (s : Stack) :
  SingleDeploymentStack tokens props = inr s ->
  s = describedStack tokens props (sanitizeId (deploymentName props)).
Proof.
  rewrite SingleDeploymentStack_cases. cbv zeta.
  destruct (importedBucketName _); [discriminate|].
  destruct (String.eqb _ ""); [discriminate|].
  destruct (reservedId _); [discriminate|].
  now intros [= <-].
Qed.

(** Deployment names of the form [tfn-...] are never taken: with a bucket
    name the framework accepts, the constructor builds. *)
Lemma SingleDeploymentStack_tfn (tokens : nat) (suffix bucket fn name : string) :
  importedBucketName ("arn:aws:s3:::" ++ bucket) = inr name ->
  let props := {| deploymentName := "tfn-" ++ suffix;
                  lambdaBucketName := bucket;
                  functionName := fn |} in
  SingleDeploymentStack tokens props =
    inr (describedStack tokens props ("tfn-" ++ sanitizeId suffix)).
Proof.
  intros Hname props. rewrite SingleDeploymentStack_cases. cbv zeta.
  cbn [lambdaBucketName props]. rewrite Hname. reflexivity.
Qed.

(** A deployment name equal to an id the constructor uses itself makes the
    constructor throw when it reaches the gateway. *)
Example SingleDeploymentStack_collision :
  SingleDeploymentStack 0
    {| deploymentName := "Role";
       lambdaBucketName := LAMBDA_BUCKET;
       functionName := "Role_00000000" |}
  = inl (Error "There is already a Construct with name 'Role' in SingleDeploymentStack [Default]").
Proof. reflexivity. Qed.

(** The token number shows in the stack description: the same properties
    under two counter states give different descriptions. *)
Example SingleDeploymentStack_counter_shows :
  SingleDeploymentStack 0 sampleProps <> SingleDeploymentStack 1 sampleProps.
Proof. discriminate. Qed.

(** The code location of the declared function. *)
Lemma function_code (tokens : nat) (props : SingleDeploymentProps) (s : Stack) :
  SingleDeploymentStack tokens props = inr s ->
  exists f,
    theFunction s = Some f
    /\ s3.bucketArn (lambda.bucket (lambda.code (lambda.props f)))
         = ("arn:aws:s3:::" ++ lambdaBucketName props)%string
    /\ lambda.key (lambda.code (lambda.props f))
         = (functionName props ++ ".zip")%string.
Proof.
  intros H. apply SingleDeploymentStack_built in H. subst s.
  eexists. repeat split.
Qed.

(** C2, as amended.  Whenever the constructor builds a stack, the log group
    it declares is named by the text [/aws/lambda/] followed by the
    framework's [functionName] attribute of the function declared under the
    fixed id [helloWorld].  That attribute is a single deploy-time token for
    that function, not the text [helloWorld]; apart from the token's
    framework-assigned number the name depends on none of the deployment
    name, bucket name and artifact name. *)
Theorem logGroupName_follows_function
  (tokens : nat) (props : SingleDeploymentProps) (s : Stack) :
  SingleDeploymentStack tokens props = inr s ->
  exists f g,
    theFunction s = Some f
    /\ theLogGroup s = Some g
    /\ lambda.nodeId f = "helloWorld"
    /\ lambda.functionName f = [Tok tokens "helloWorld"]
    /\ logs.logGroupName g = Lit "/aws/lambda/" :: lambda.functionName f
    /\ logs.retention g = logs.FIVE_DAYS
    /\ logs.removalPolicy g = DESTROY.
Proof.
  intros H. apply SingleDeploymentStack_built in H. subst s.
  eexists; eexists.
  split; [reflexivity|]. split; [reflexivity|]. repeat split.
Qed.

Lemma logGroupName_follows_function_witness :
  exists s f g,
    SingleDeploymentStack 0 sampleProps = inr s
    /\ theFunction s = Some f
    /\ theLogGroup s = Some g
    /\ lambda.nodeId f = "helloWorld"
    /\ lambda.functionName f = [Tok 0 "helloWorld"]
    /\ logs.logGroupName g = Lit "/aws/lambda/" :: lambda.functionName f
    /\ logs.retention g = logs.FIVE_DAYS
    /\ logs.removalPolicy g = DESTROY.
Proof.
  exists (describedStack 0 sampleProps "tfn-1636000000000").
  destruct (@logGroupName_follows_function 0 sampleProps
              (describedStack 0 sampleProps "tfn-1636000000000") eq_refl)
    as (f & g & H).
  exists f, g. split; [reflexivity | exact H].
Defined.

(** C2, as stated, fails: the declared log group name is not the text
    [/aws/lambda/helloWorld]; it has no text before deployment, because its
    second part is a token. *)
Lemma logGroupName_not_literal :
  exists s g,
    SingleDeploymentStack 0 sampleProps = inr s
    /\ theLogGroup s = Some g
    /\ logs.logGroupName g = [Lit "/aws/lambda/"; Tok 0 "helloWorld"]
    /\ asLiteral (logs.logGroupName g) = None
    /\ asLiteral (logs.logGroupName g) <> Some "/aws/lambda/helloWorld".
Proof.
  eexists; eexists.
  split; [reflexivity|]. split; [reflexivity|]. split; [reflexivity|].
  split; [reflexivity | discriminate].
Qed.

Lemma splitChar_notSeparator (s : string) :
  allChars notSeparator s = true -> splitChar ":" s = [s].
Proof.
  induction s as [|c s IH]; [reflexivity|].
  cbn [allChars splitChar]. intros H.
  apply andb_true_iff in H. destruct H as [Hc Hs].
  unfold notSeparator in Hc. apply andb_true_iff in Hc. destruct Hc as [_ Hc].
  destruct (Ascii.eqb c ":"); [discriminate|].
  now rewrite (IH Hs).
Qed.

Lemma indexOf_notSeparator (s : string) :
  allChars notSeparator s = true -> indexOf "/" s = None.
Proof.
  induction s as [|c s IH]; [reflexivity|].
  cbn [allChars indexOf]. intros H.
  apply andb_true_iff in H. destruct H as [Hc Hs].
  unfold notSeparator in Hc. apply andb_true_iff in Hc. destruct Hc as [Hc _].
  destruct (Ascii.eqb c "/"); [discriminate|].
  now rewrite (IH Hs).
Qed.

(** A bucket name without slash or colon comes back from its ARN as it
    went in. *)
Lemma bucketNameOf_notSeparator (given : string) :
  allChars notSeparator given = true -> bucketNameOf given = given.
Proof.
  intros H. unfold bucketNameOf.
  rewrite (splitChar_notSeparator _ H). cbn [nth].
  destruct given as [|c rest]; [reflexivity|].
  unfold resourceOf. rewrite (indexOf_notSeparator _ H).
  cbn [allChars] in H. apply andb_true_iff in H. destruct H as [Hc _].
  unfold notSeparator in Hc. apply andb_true_iff in Hc. destruct Hc as [Hc _].
  now destruct (Ascii.eqb c "/").
Qed.

(** The bucket the declared function takes its code from, in general: the
    name the framework read out of the ARN, which it has accepted. *)
Lemma function_bucket_name (tokens : nat) (props : SingleDeploymentProps)
  (s : Stack) :
  SingleDeploymentStack tokens props = inr s ->
  exists f,
    theFunction s = Some f
    /\ s3.bucketName (lambda.bucket (lambda.code (lambda.props f)))
         = bucketNameOf (lambdaBucketName props)
    /\ validBucketName (bucketNameOf (lambdaBucketName props)) = true.
Proof.
  intros H. pose proof H as Hbuilt.
  apply SingleDeploymentStack_built in H. subst s.
  eexists. split; [reflexivity|]. split; [reflexivity|].
  rewrite SingleDeploymentStack_cases in Hbuilt. cbv zeta in Hbuilt.
  destruct (importedBucketName _) as [e|name] eqn:Hname; [discriminate|].
  apply importedBucketName_inr in Hname. now destruct Hname as [<- Hvalid].
Qed.

(** C5, as amended.  Whenever the constructor builds a stack from a bucket
    name that holds neither a slash nor a colon, the function it declares
    takes its code from exactly that bucket, imported under the ARN
    [arn:aws:s3:::<bucket name>] as the construct [lambda-storage], and from
    the key [<artifact name>.zip]. *)
Theorem function_code_location
  (tokens : nat) (props : SingleDeploymentProps) (s : Stack) :
  SingleDeploymentStack tokens props = inr s ->
  allChars notSeparator (lambdaBucketName props) = true ->
  exists f,
    theFunction s = Some f
    /\ let location := lambda.code (lambda.props f) in
       s3.bucketName (lambda.bucket location) = lambdaBucketName props
       /\ s3.bucketArn (lambda.bucket location)
            = ("arn:aws:s3:::" ++ lambdaBucketName props)%string
       /\ tryFindChild "lambda-storage" s = Some (CBucket (lambda.bucket location))
       /\ lambda.key location = (functionName props ++ ".zip")%string.
Proof.
  intros H Hplain. apply SingleDeploymentStack_built in H. subst s.
  eexists. split; [reflexivity|]. cbv zeta.
  split; [now apply bucketNameOf_notSeparator|].
  split; [reflexivity|]. split; reflexivity.
Qed.

Lemma function_code_location_witness :
  exists s f,
    SingleDeploymentStack 0 sampleProps = inr s
    /\ theFunction s = Some f
    /\ s3.bucketName (lambda.bucket (lambda.code (lambda.props f)))
         = "cdk-test-tfn-lambdas"
    /\ s3.bucketArn (lambda.bucket (lambda.code (lambda.props f)))
         = "arn:aws:s3:::cdk-test-tfn-lambdas"
    /\ lambda.key (lambda.code (lambda.props f)) = "tfn-1636000000000_00000000.zip".
Proof.
  exists (describedStack 0 sampleProps "tfn-1636000000000").
  destruct (@function_code_location 0 sampleProps
              (describedStack 0 sampleProps "tfn-1636000000000") eq_refl eq_refl)
    as (f & Hf & Hname & Harn & _ & Hkey).
  exists f. repeat split; assumption.
Defined.

(** C5, as stated, fails: given the bucket name [my-bucket/path] the
    constructor builds a stack whose function takes its code from the bucket
    [my-bucket], the part the framework reads out of the ARN. *)
Lemma function_bucket_cut :
  exists s f,
    SingleDeploymentStack 0 pathProps = inr s
    /\ theFunction s = Some f
    /\ s3.bucketName (lambda.bucket (lambda.code (lambda.props f))) = "my-bucket"
    /\ s3.bucketName (lambda.bucket (lambda.code (lambda.props f)))
         <> lambdaBucketName pathProps.
Proof.
  eexists; eexists.
  split; [reflexivity|]. split; [reflexivity|].
  split; [reflexivity | discriminate].
Qed.

(** The constructor throws the same exception whatever the counter. *)
Lemma synthesis_failure_deterministic
  (props : SingleDeploymentProps) (tokens1 tokens2 : nat) (e : Exception) :
  SingleDeploymentStack tokens1 props = inl e ->
  SingleDeploymentStack tokens2 props = inl e.
Proof.
  rewrite !SingleDeploymentStack_cases. cbv zeta.
  destruct (importedBucketName _); [trivial|].
  destruct (String.eqb _ ""); [trivial|].
  destruct (reservedId _); [trivial | discriminate].
Qed.

(** C7.  When the constructor builds a stack from given properties, it
    builds one from the same properties in every other state of the
    framework's token counter too, and the two stacks declare the same
    resources under the same ids: bucket import, role, function, log group
    and a gateway with one route.  The two stacks are equal once the numbers
    of the framework's tokens are forgotten. *)
Theorem synthesis_deterministic
  (props : SingleDeploymentProps) (tokens1 tokens2 : nat) (s1 : Stack) :
  SingleDeploymentStack tokens1 props = inr s1 ->
  exists s2,
    SingleDeploymentStack tokens2 props = inr s2
    /\ eraseTokens s1 = eraseTokens s2
    /\ map fst s1 = map fst s2
    /\ map (fun kc => kindOf (snd kc)) s1
         = [KBucket; KRole; KFunction; KLogGroup; KGateway 1]
    /\ map (fun kc => kindOf (snd kc)) s2
         = [KBucket; KRole; KFunction; KLogGroup; KGateway 1]
    /\ theRole s1 = theRole s2
    /\ option_map eraseFunction (theFunction s1)
         = option_map eraseFunction (theFunction s2)
    /\ option_map (fun g => map eraseFragment (logs.logGroupName g)) (theLogGroup s1)
         = option_map (fun g => map eraseFragment (logs.logGroupName g)) (theLogGroup s2).
Proof.
  intros H. pose proof H as Hbuilt.
  apply SingleDeploymentStack_built in H. subst s1.
  rewrite SingleDeploymentStack_cases in Hbuilt |- *. cbv zeta in Hbuilt |- *.
  destruct (importedBucketName _); [discriminate|].
  destruct (String.eqb _ ""); [discriminate|].
  destruct (reservedId _); [discriminate|].
  eexists. split; [reflexivity|]. repeat split.
Qed.

Lemma synthesis_deterministic_witness :
  exists s1 s2,
    SingleDeploymentStack 0 sampleProps = inr s1
    /\ SingleDeploymentStack 15 sampleProps = inr s2
    /\ s1 <> s2
    /\ eraseTokens s1 = eraseTokens s2
    /\ map (fun kc => kindOf (snd kc)) s2
         = [KBucket; KRole; KFunction; KLogGroup; KGateway 1].
Proof.
  exists (describedStack 0 sampleProps "tfn-1636000000000").
  destruct (@synthesis_deterministic sampleProps 0 15
              (describedStack 0 sampleProps "tfn-1636000000000") eq_refl)
    as (s2 & H2 & Herase & _ & _ & Hkinds & _).
  exists s2. split; [reflexivity|]. split; [exact H2|].
  split; [|split; [exact Herase | exact Hkinds]].
  intros <-. discriminate H2.
Defined.

(* ===================================================================== *)
(** ** Runs of the script *)
(* ===================================================================== *)

Section Runs.

Variable I : Imports.

(** What [generateStack] does in a world: three interactions, then the
    synthesis, which adds nothing to the trace. *)
Lemma generateStack_run (options : GenerateStackOptions.t) (w : World) :
  let dn := GenerateStackOptions.deploymentName options in
  let bn := GenerateStackOptions.lambdaBucketName options in
  let buf := map (randomSource w) (seq 0 4) in
  let fn := (dn ++ "_" ++ toStringHex buf)%string in
  let file := pathJoin I (dirname w) "../lambda.zip" in
  let put := {| Bucket := bn; Key := fn ++ ".zip";
                Body := {| streamPath := file |} |} in
  let up := s3Service w REGION put in
  generateStack I options w =
    ([RandomBytes 4 buf; CreateReadStream file; S3Send REGION put up],
     match up with
     | inl e => inl e
     | inr _ =>
         match SingleDeploymentStack (cdkTokens w)
                 {| deploymentName := dn;
                    lambdaBucketName := bn;
                    functionName := fn |} with
         | inl e => inl e
         | inr stack => toCloudFormation I stack
         end
     end).
Proof.
  intros. unfold generateStack, generateUUID, bind, randomBytes, ret,
    readDirname, createReadStream, s3Client_send, cdkTokenCounter, settle.
  cbn [List.app fst snd].
  fold dn bn buf. fold fn. fold file. fold put. fold up.
  destruct up as [e|out]; [reflexivity|].
  destruct (SingleDeploymentStack _ _) as [e|stack]; [reflexivity|].
  destruct (toCloudFormation I stack); reflexivity.
Qed.

(** What [main] does around [generateStack]. *)
Lemma main_run (w : World) :
  main I w =
    match generateStack I (mainOptions w) w with
    | (t, inl e) => (DateNow (now w) :: t, inl e)
    | (t, inr template) =>
        let command :=
          {| StackName := stackNameAt w;
             TemplateBody := JSON_stringify I template None;
             Capabilities := [CAPABILITY_IAM] |} in
        let ack := cloudFormationService w REGION command in
        (DateNow (now w) :: t
           ++ ConsoleLog [LogString "template: ";
                          LogString (JSON_stringify I template (Some 2))]
           :: CloudFormationSend REGION command ack
           :: match ack with
              | inl _ => []
              | inr response => [ConsoleLog [LogResponse response]]
              end,
         match ack with
         | inl e => inl e
         | inr _ => inr tt
         end)
    end.
Proof.
  unfold main. unfold bind at 1. unfold dateNow.
  fold (stackNameAt w). fold (mainOptions w).
  unfold bind at 1.
  destruct (generateStack I (mainOptions w) w) as [t [e|template]];
    [reflexivity|].
  unfold bind, console_log, cloudFormationClient_send. cbv zeta.
  destruct (cloudFormationService w REGION _); cbn [List.app]; reflexivity.
Qed.

Lemma putRequests_generateStack (options : GenerateStackOptions.t) (w : World) :
  exists put,
    putRequests (fst (generateStack I options w)) = [put]
    /\ createRequests (fst (generateStack I options w)) = []
    /\ randomTokens (fst (generateStack I options w))
         = [toStringHex (map (randomSource w) (seq 0 4))]
    /\ Key put = (GenerateStackOptions.deploymentName options ++ "_"
                  ++ toStringHex (map (randomSource w) (seq 0 4)) ++ ".zip")%string
    /\ Bucket put = GenerateStackOptions.lambdaBucketName options.
Proof.
  rewrite generateStack_run. cbv zeta. eexists. cbn [fst].
  split; [reflexivity|]. split; [reflexivity|]. split; [reflexivity|].
  split; [|reflexivity].
  cbn [Key]. now rewrite !append_assoc.
Qed.

End Runs.

(** A constructor that throws does so after the upload has been sent and
    acknowledged; the run ends there, with the object uploaded. *)
Example generateStack_late_failure :
  generateStack plainImports
    {| GenerateStackOptions.deploymentName := "Role";
       GenerateStackOptions.lambdaBucketName := LAMBDA_BUCKET |}
    calmWorld
  = ([RandomBytes 4 [x00; x00; x00; x00];
      CreateReadStream "/app/src/../lambda.zip";
      S3Send REGION
        {| Bucket := LAMBDA_BUCKET;
           Key := "Role_00000000.zip";
           Body := {| streamPath := "/app/src/../lambda.zip" |} |}
        stored],
     inl (Error "There is already a Construct with name 'Role' in SingleDeploymentStack [Default]")).
Proof. reflexivity. Qed.

Lemma putRequests_app (t u : list Event) :
  putRequests (t ++ u) = putRequests t ++ putRequests u.
Proof. apply flat_map_app. Qed.

Lemma createRequests_app (t u : list Event) :
  createRequests (t ++ u) = createRequests t ++ createRequests u.
Proof. apply flat_map_app. Qed.

Lemma randomTokens_app (t u : list Event) :
  randomTokens (t ++ u) = randomTokens t ++ randomTokens u.
Proof. apply flat_map_app. Qed.

(** The projections of a whole run, from those of its [generateStack]. *)
Lemma main_projections (I : Imports) (w : World) :
  let uuid := toStringHex (map (randomSource w) (seq 0 4)) in
  randomTokens (fst (main I w)) = [uuid]
  /\ map Key (putRequests (fst (main I w)))
       = [(stackNameAt w ++ "_" ++ uuid ++ ".zip")%string]
  /\ createRequests (fst (main I w))
       = match snd (generateStack I (mainOptions w) w) with
         | inl _ => []
         | inr template => [createCommand I w template]
         end.
Proof.
  intros uuid.
  destruct (putRequests_generateStack I (mainOptions w) w)
    as (put & Hput & Hcreate & Htok & Hkey & _).
  rewrite main_run.
  destruct (generateStack I (mainOptions w) w) as [t [e|template]];
    cbn [fst snd] in *.
  - change (DateNow (now w) :: t) with ([DateNow (now w)] ++ t).
    rewrite randomTokens_app, putRequests_app, createRequests_app.
    rewrite Hput, Htok, Hcreate. cbn. now rewrite Hkey.
  - cbv zeta. cbn [fst].
    change (DateNow (now w) :: ?x) with ([DateNow (now w)] ++ x).
    rewrite !randomTokens_app, !putRequests_app, !createRequests_app.
    rewrite Hput, Htok, Hcreate.
    destruct (cloudFormationService w REGION _); cbn; now rewrite Hkey.
Qed.

(** C4, as amended.  Two runs whose generated tokens differ upload under
    different object keys.  Their stack names do not involve the token: two
    submitted stack names are equal exactly when the two runs read the same
    clock value. *)
Theorem distinct_tokens_distinct_keys (I : Imports) (w1 w2 : World) :
  randomTokens (fst (main I w1)) <> randomTokens (fst (main I w2)) ->
  map Key (putRequests (fst (main I w1)))
    <> map Key (putRequests (fst (main I w2)))
  /\ (forall c1 c2,
        In c1 (createRequests (fst (main I w1))) ->
        In c2 (createRequests (fst (main I w2))) ->
        (StackName c1 = StackName c2 <-> now w1 = now w2)).
Proof.
  destruct (main_projections I w1) as (Ht1 & Hk1 & Hc1).
  destruct (main_projections I w2) as (Ht2 & Hk2 & Hc2).
  rewrite Ht1, Ht2, Hk1, Hk2, Hc1, Hc2. clear Ht1 Ht2 Hk1 Hk2 Hc1 Hc2.
  assert (L1 := toStringHex_length (map (randomSource w1) (seq 0 4))).
  assert (L2 := toStringHex_length (map (randomSource w2) (seq 0 4))).
  revert L1 L2.
  generalize (toStringHex (map (randomSource w1) (seq 0 4))) as u1.
  generalize (toStringHex (map (randomSource w2) (seq 0 4))) as u2.
  intros u2 u1 L1 L2 Hne. split.
  - intros [= E]. apply Hne. f_equal.
    apply append_inj in E.
    + destruct E as [_ E]. cbn [append] in E. injection E as E.
      now apply append_inj in E.
    + cbn [append String.length].
      now rewrite !length_append, L1, L2.
  - intros c1 c2 H1 H2.
    assert (N1 : StackName c1 = stackNameAt w1).
    { destruct (snd (generateStack I (mainOptions w1) w1)); [destruct H1|].
      destruct H1 as [<-|[]]. reflexivity. }
    assert (N2 : StackName c2 = stackNameAt w2).
    { destruct (snd (generateStack I (mainOptions w2) w2)); [destruct H2|].
      destruct H2 as [<-|[]]. reflexivity. }
    rewrite N1, N2. unfold stackNameAt. split.
    + intros [= E]. now apply numberToString_inj.
    + now intros ->.
Qed.

Lemma distinct_tokens_distinct_keys_witness :
  randomTokens (fst (main plainImports calmWorld))
    <> randomTokens (fst (main plainImports otherTokenWorld))
  /\ map Key (putRequests (fst (main plainImports calmWorld)))
       <> map Key (putRequests (fst (main plainImports otherTokenWorld))).
Proof.
  assert (H : randomTokens (fst (main plainImports calmWorld))
              <> randomTokens (fst (main plainImports otherTokenWorld)))
    by (vm_compute; discriminate).
  split; [exact H|].
  exact (proj1 (@distinct_tokens_distinct_keys plainImports calmWorld
                  otherTokenWorld H)).
Defined.

(** C4, as stated, fails: two runs that read the same clock value draw
    different tokens and still submit the same stack name. *)
Lemma distinct_tokens_same_stack_name :
  randomTokens (fst (main plainImports calmWorld)) = ["00000000"]
  /\ randomTokens (fst (main plainImports otherTokenWorld)) = ["01010101"]
  /\ map StackName (createRequests (fst (main plainImports calmWorld)))
       = ["tfn-1636000000000"]
  /\ map StackName (createRequests (fst (main plainImports otherTokenWorld)))
       = ["tfn-1636000000000"].
Proof. repeat split. Qed.

(** The shape of every run, step by step. *)
Lemma run_shape (I : Imports) (w : World) :
  let buf := map (randomSource w) (seq 0 4) in
  let fn := (stackNameAt w ++ "_" ++ toStringHex buf)%string in
  let file := pathJoin I (dirname w) "../lambda.zip" in
  let put := {| Bucket := LAMBDA_BUCKET; Key := fn ++ ".zip";
                Body := {| streamPath := file |} |} in
  let up := s3Service w REGION put in
  exists tail,
    fst (main I w)
      = DateNow (now w) :: RandomBytes 4 buf :: CreateReadStream file
          :: S3Send REGION put up :: tail
    /\ match up with
       | inl e => tail = [] /\ snd (main I w) = inl e
       | inr _ =>
           match SingleDeploymentStack (cdkTokens w)
                   {| deploymentName := stackNameAt w;
                      lambdaBucketName := LAMBDA_BUCKET;
                      functionName := fn |} with
           | inl e => tail = [] /\ snd (main I w) = inl e
           | inr stack =>
               match toCloudFormation I stack with
               | inl e => tail = [] /\ snd (main I w) = inl e
               | inr template =>
                   let command := createCommand I w template in
                   let ack := cloudFormationService w REGION command in
                   tail = ConsoleLog
                            [LogString "template: ";
                             LogString (JSON_stringify I template (Some 2))]
                          :: CloudFormationSend REGION command ack
                          :: match ack with
                             | inl _ => []
                             | inr response => [ConsoleLog [LogResponse response]]
                             end
                   /\ snd (main I w) = match ack with
                                       | inl e => inl e
                                       | inr _ => inr tt
                                       end
               end
           end
       end.
Proof.
  intros buf fn file put up.
  rewrite main_run, generateStack_run. cbv zeta.
  cbn [GenerateStackOptions.deploymentName GenerateStackOptions.lambdaBucketName
       mainOptions].
  fold buf. fold fn. fold file. fold put. fold up.
  destruct up as [e|out].
  - exists []. repeat split.
  - destruct (SingleDeploymentStack _ _) as [e|stack].
    + exists []. repeat split.
    + destruct (toCloudFormation I stack) as [e|template].
      * exists []. repeat split.
      * eexists. split; [reflexivity|]. cbv zeta. split; reflexivity.
Qed.

(** C6.  In every run that reaches the submitter, that is, whose
    [generateStack] resolved with a template, exactly one stack-creation
    request is sent.  It carries the stack name, the serialized template and
    the single capability [CAPABILITY_IAM].  Whatever the service answers
    settles the run at once: an acknowledgement is printed and the run
    resolves, a rejection rejects the run; in both cases nothing is sent or
    asked after the request. *)
Theorem submitter_single_request
  (I : Imports) (w : World) (template : Template I) :
  snd (generateStack I (mainOptions w) w) = inr template ->
  let command :=
    {| StackName := stackNameAt w;
       TemplateBody := JSON_stringify I template None;
       Capabilities := [CAPABILITY_IAM] |} in
  let ack := cloudFormationService w REGION command in
  createRequests (fst (main I w)) = [command]
  /\ (exists before,
        createRequests before = []
        /\ fst (main I w)
             = before ++ CloudFormationSend REGION command ack
                 :: match ack with
                    | inl _ => []
                    | inr response => [ConsoleLog [LogResponse response]]
                    end)
  /\ snd (main I w) = match ack with
                      | inl e => inl e
                      | inr _ => inr tt
                      end.
Proof.
  intros H command ack.
  destruct (main_projections I w) as (_ & _ & Hc).
  rewrite H in Hc. split; [exact Hc|]. clear Hc.
  destruct (putRequests_generateStack I (mainOptions w) w)
    as (_ & _ & Hcreate & _).
  rewrite main_run.
  destruct (generateStack I (mainOptions w) w) as [t [e|template']];
    cbn [fst snd] in *; [discriminate|].
  injection H as ->. cbv zeta. fold command. fold ack. cbn [fst snd].
  split; [|reflexivity].
  exists (DateNow (now w) :: t
          ++ [ConsoleLog [LogString "template: ";
                          LogString (JSON_stringify I template (Some 2))]]).
  split.
  - change (DateNow (now w) :: ?x) with ([DateNow (now w)] ++ x).
    rewrite !createRequests_app, Hcreate. reflexivity.
  - cbn [List.app]. now rewrite <- app_assoc.
Qed.

Lemma submitter_single_request_witness :
  createRequests (fst (main plainImports calmWorld))
    = [ {| StackName := "tfn-1636000000000";
           TemplateBody := "{}";
           Capabilities := [CAPABILITY_IAM] |} ]
  /\ snd (main plainImports calmWorld) = inr tt.
Proof.
  destruct (@submitter_single_request plainImports calmWorld
              (describedStack 0 sampleProps "tfn-1636000000000") eq_refl)
    as (Hreq & _ & Hres).
  split; [exact Hreq | exact Hres].
Defined.

(** C8.  Every run is the same straight line.  The clock is read, four
    random bytes are drawn, the archive stream is created and the upload is
    sent once, its key built from the bytes just drawn.  Only when the
    upload has been acknowledged is the stack built, which always succeeds
    here, and converted; neither adds anything to the trace.  Only when the
    conversion has produced a template is it printed and submitted, once,
    and the answer printed.  A step that fails ends the trace: nothing is
    repeated and nothing is skipped. *)
Theorem run_is_sequential (I : Imports) (w : World) :
  let buf := map (randomSource w) (seq 0 4) in
  let fn := (stackNameAt w ++ "_" ++ toStringHex buf)%string in
  let file := pathJoin I (dirname w) "../lambda.zip" in
  let put := {| Bucket := LAMBDA_BUCKET; Key := fn ++ ".zip";
                Body := {| streamPath := file |} |} in
  let up := s3Service w REGION put in
  exists tail stack,
    fst (main I w)
      = DateNow (now w) :: RandomBytes 4 buf :: CreateReadStream file
          :: S3Send REGION put up :: tail
    /\ SingleDeploymentStack (cdkTokens w)
         {| deploymentName := stackNameAt w;
            lambdaBucketName := LAMBDA_BUCKET;
            functionName := fn |} = inr stack
    /\ List.length (putRequests (fst (main I w))) = 1
    /\ List.length (createRequests (fst (main I w))) <= 1
    /\ match up, toCloudFormation I stack with
       | inl e, _ => tail = [] /\ snd (main I w) = inl e
       | inr _, inl e => tail = [] /\ snd (main I w) = inl e
       | inr _, inr template =>
           let command := createCommand I w template in
           let ack := cloudFormationService w REGION command in
           tail = ConsoleLog
                    [LogString "template: ";
                     LogString (JSON_stringify I template (Some 2))]
                  :: CloudFormationSend REGION command ack
                  :: match ack with
                     | inl _ => []
                     | inr response => [ConsoleLog [LogResponse response]]
                     end
           /\ snd (main I w) = match ack with
                               | inl e => inl e
                               | inr _ => inr tt
                               end
       end.
Proof.
  intros buf fn file put up.
  destruct (run_shape I w) as (tail & Htrace & Hcase).
  destruct (main_projections I w) as (_ & Hk & Hc).
  fold buf fn file put up in Htrace, Hcase.
  pose proof (@SingleDeploymentStack_tfn (cdkTokens w) (numberToString (now w))
                LAMBDA_BUCKET fn LAMBDA_BUCKET eq_refl) as Hstack.
  cbv zeta in Hstack. fold (stackNameAt w) in Hstack.
  rewrite Hstack in Hcase.
  eexists tail, _. split; [exact Htrace|]. split; [exact Hstack|].
  split; [now rewrite <- (length_map Key), Hk|].
  split; [rewrite Hc; destruct (snd (generateStack I (mainOptions w) w)); cbn; lia|].
  destruct up as [e|out]; [exact Hcase|].
  destruct (toCloudFormation I _) as [e|template]; exact Hcase.
Qed.



(** C10.  Whenever [generateStack] resolves, the key of the one object it
    uploaded and the code key of the function declared in the stack it
    converted are the same string, [<deploymentName>_<token>.zip], both made
    from the one artifact name, and both refer to the bucket passed in. *)
Theorem upload_key_is_code_key
  (I : Imports) (options : GenerateStackOptions.t) (w : World)
  (template : Template I) :
  snd (generateStack I options w) = inr template ->
  let dn := GenerateStackOptions.deploymentName options in
  let bn := GenerateStackOptions.lambdaBucketName options in
  exists uuid put stack f,
    randomTokens (fst (generateStack I options w)) = [uuid]
    /\ putRequests (fst (generateStack I options w)) = [put]
    /\ SingleDeploymentStack (cdkTokens w)
         {| deploymentName := dn;
            lambdaBucketName := bn;
            functionName := dn ++ "_" ++ uuid |} = inr stack
    /\ toCloudFormation I stack = inr template
    /\ theFunction stack = Some f
    /\ Key put = (dn ++ "_" ++ uuid ++ ".zip")%string
    /\ lambda.key (lambda.code (lambda.props f)) = Key put
    /\ Bucket put = bn
    /\ s3.bucketArn (lambda.bucket (lambda.code (lambda.props f)))
         = ("arn:aws:s3:::" ++ Bucket put)%string.
Proof.
  intros H dn bn. rewrite generateStack_run in *. cbv zeta in *.
  cbn [fst snd] in *. fold dn bn in H |- *.
  destruct (s3Service w REGION _) as [e|out]; [discriminate|].
  destruct (SingleDeploymentStack _ _) as [e|stack] eqn:Hstack; [discriminate|].
  destruct (function_code _ _ Hstack) as (f & Hf & Harn & Hkey).
  exists (toStringHex (map (randomSource w) (seq 0 4))).
  eexists. exists stack, f.
  split; [reflexivity|]. split; [reflexivity|]. split; [exact Hstack|].
  split; [exact H|]. split; [exact Hf|]. cbn [Key Bucket].
  split; [now rewrite append_assoc|].
  split; [exact Hkey|]. split; [reflexivity | exact Harn].
Qed.

Lemma upload_key_is_code_key_witness :
  exists put stack f,
    putRequests (fst (generateStack plainImports (mainOptions calmWorld) calmWorld))
      = [put]
    /\ theFunction stack = Some f
    /\ Key put = "tfn-1636000000000_00000000.zip"
    /\ lambda.key (lambda.code (lambda.props f)) = Key put.
Proof.
  destruct (@upload_key_is_code_key plainImports (mainOptions calmWorld) calmWorld
              (describedStack 0 sampleProps "tfn-1636000000000") eq_refl)
    as (uuid & put & stack & f & _ & Hput & _ & _ & Hf & _ & Hkey & _).
  exists put, stack, f.
  split; [exact Hput|]. split; [exact Hf|]. split; [|exact Hkey].
  injection Hput as <-. reflexivity.
Defined.

(* ===================================================================== *)
(** ** Further properties of the identifier generator and of names *)
(* ===================================================================== *)

Lemma byteOfHex_hexOfByte (b : byte) :
  hexOfByte b
    = String (hexDigit (Byte.to_N b / 16))
        (String (hexDigit (Byte.to_N b mod 16)) EmptyString)
  /\ byteOfHex (hexDigit (Byte.to_N b / 16)) (hexDigit (Byte.to_N b mod 16))
       = Some b.
Proof. destruct b; split; reflexivity. Qed.

(** Decoding undoes the hexadecimal encoding. *)
Lemma fromHex_toStringHex (buf : list byte) :
  fromHex (toStringHex buf) = Some buf.
Proof.
  induction buf as [|b buf IH]; [reflexivity|].
  change (toStringHex (b :: buf)) with (hexOfByte b ++ toStringHex buf)%string.
  destruct (byteOfHex_hexOfByte b) as [-> Hb].
  cbn [append fromHex]. now rewrite Hb, IH.
Qed.

(** X1.  The identifier keeps all the randomness drawn: in two worlds
    [generateUUID] returns the same identifier exactly when the four random
    bytes drawn are the same. *)
Theorem generateUUID_injective (w1 w2 : World) :
  snd (generateUUID w1) = snd (generateUUID w2)
  <-> map (randomSource w1) (seq 0 4) = map (randomSource w2) (seq 0 4).
Proof.
  rewrite !generateUUID_run. cbn [snd]. split.
  - intros E.
    apply (f_equal (fun r : Exception + string =>
                      match r with
                      | inr id => fromHex id
                      | inl _ => None
                      end)) in E.
    cbv beta iota in E.
    rewrite !fromHex_toStringHex in E. congruence.
  - now intros ->.
Qed.

Lemma string_of_uint_name (d : Decimal.uint) :
  allChars isNameChar (NilEmpty.string_of_uint d) = true
  /\ allChars notSlash (NilEmpty.string_of_uint d) = true.
Proof.
  induction d as [|d [IH1 IH2]|d [IH1 IH2]|d [IH1 IH2]|d [IH1 IH2]|d [IH1 IH2]
                  |d [IH1 IH2]|d [IH1 IH2]|d [IH1 IH2]|d [IH1 IH2]|d [IH1 IH2]];
    cbn [NilEmpty.string_of_uint allChars]; [split; reflexivity|..];
    rewrite IH1, IH2; split; reflexivity.
Qed.

Lemma numberToString_name (n : Z) :
  allChars isNameChar (numberToString n) = true
  /\ allChars notSlash (numberToString n) = true.
Proof.
  unfold numberToString.
  destruct (Z.to_int n) as [d|d]; cbn [NilZero.string_of_int].
  - destruct d; try (split; reflexivity);
      apply (string_of_uint_name (_ d)).
  - cbn [allChars].
    destruct d; try (split; reflexivity);
      apply (string_of_uint_name (_ d)).
Qed.

(** X2.  Whatever the clock reads, also before 1970, the stack name [main]
    builds matches the pattern quoted above its definition, and so does the
    name carried by every stack-creation request of the run. *)
Theorem stack_name_matches_pattern (I : Imports) (w : World) :
  matchesStackName (stackNameAt w) = true
  /\ forallb (fun c => matchesStackName (StackName c))
       (createRequests (fst (main I w))) = true.
Proof.
  assert (H : matchesStackName (stackNameAt w) = true).
  { unfold stackNameAt. cbn [append matchesStackName allChars].
    now rewrite (proj1 (numberToString_name (now w))). }
  split; [exact H|].
  destruct (main_projections I w) as (_ & _ & ->).
  destruct (snd (generateStack I (mainOptions w) w)); [reflexivity|].
  cbn [forallb createCommand StackName]. now rewrite H.
Qed.

(* ===================================================================== *)
(** ** Further properties of the stack constructor *)
(* ===================================================================== *)

Lemma existsb_fixedIds (api : string) :
  existsb (fun k => String.eqb k api) fixedIds = true <-> In api fixedIds.
Proof.
  rewrite existsb_exists. split.
  - intros (k & Hin & Heq). apply String.eqb_eq in Heq. now subst k.
  - intros Hin. exists api. split; [exact Hin | apply String.eqb_refl].
Qed.

Lemma reservedId_true (api : string) :
  reservedId api = true <-> In api fixedIds \/ In api objectPrototypeKeys.
Proof.
  unfold reservedId. rewrite orb_true_iff, existsb_fixedIds, existsb_exists.
  split.
  - intros [H|(k & Hin & Heq)]; [now left|].
    apply String.eqb_eq in Heq. subst k. now right.
  - intros [H|H]; [now left|].
    right. exists api. split; [exact H | apply String.eqb_refl].
Qed.

(** A built stack is the closed form, and its gateway id is fresh. *)
Lemma SingleDeploymentStack_fresh (tokens : nat) (props : SingleDeploymentProps)
  (s : Stack) :
  SingleDeploymentStack tokens props = inr s ->
  let api := sanitizeId (deploymentName props) in
  s = describedStack tokens props api /\ api <> EmptyString /\ ~ In api fixedIds.
Proof.
  rewrite SingleDeploymentStack_cases. cbv zeta.
  destruct (importedBucketName _); [discriminate|].
  destruct (String.eqb _ "") eqn:E0; [discriminate|].
  destruct (reservedId _) eqn:E1; [discriminate|].
  intros [= <-]. split; [reflexivity|]. split.
  - now apply String.eqb_neq.
  - intros Hin.
    assert (reservedId (sanitizeId (deploymentName props)) = true)
      by (apply reservedId_true; now left).
    congruence.
Qed.

(** An empty or taken gateway id makes the constructor throw, whatever the
    rest of its input. *)
Lemma SingleDeploymentStack_taken (tokens : nat) (props : SingleDeploymentProps) :
  let api := sanitizeId (deploymentName props) in
  api = EmptyString \/ In api fixedIds \/ In api objectPrototypeKeys ->
  exists e, SingleDeploymentStack tokens props = inl e.
Proof.
  intros api H. rewrite SingleDeploymentStack_cases. cbv zeta. fold api.
  destruct (importedBucketName _); [eexists; reflexivity|].
  destruct (String.eqb api "") eqn:E0; [eexists; reflexivity|].
  apply String.eqb_neq in E0.
  destruct H as [H|H]; [contradiction|].
  apply reservedId_true in H. rewrite H. eexists; reflexivity.
Qed.

(** X3.  The constructor throws whenever the deployment name, with each
    path separator replaced, is empty, is one of the four ids the
    constructor gives to its own constructs ([lambda-storage], [Role],
    [helloWorld], [logGrouphelloWorld]) or is a key every object inherits,
    such as [constructor] or [toString]; the bucket name, the artifact name
    and the token counter cannot prevent it. *)
Theorem constructor_rejects_taken_id
  (tokens : nat) (props : SingleDeploymentProps) :
  sanitizeId (deploymentName props) = EmptyString
  \/ In (sanitizeId (deploymentName props)) fixedIds
  \/ In (sanitizeId (deploymentName props)) objectPrototypeKeys ->
  exists e, SingleDeploymentStack tokens props = inl e.
Proof.
  intros H. now apply SingleDeploymentStack_taken.
Qed.

Lemma constructor_rejects_taken_id_witness :
  exists e,
    SingleDeploymentStack 0
      {| deploymentName := "constructor";
         lambdaBucketName := LAMBDA_BUCKET;
         functionName := "constructor_00000000" |} = inl e.
Proof.
  exact (@constructor_rejects_taken_id 0
           {| deploymentName := "constructor";
              lambdaBucketName := LAMBDA_BUCKET;
              functionName := "constructor_00000000" |}
           (or_intror (or_intror (or_introl eq_refl)))).
Defined.

(** X4.  A stack the constructor has built holds five constructs under
    pairwise distinct ids, created in the order bucket import, role,
    function, log group, gateway; the gateway's id is the deployment name
    with each path separator replaced. *)
Theorem built_stack_ids (tokens : nat) (props : SingleDeploymentProps)
  (s : Stack) :
  SingleDeploymentStack tokens props = inr s ->
  map fst s = fixedIds ++ [sanitizeId (deploymentName props)]
  /\ NoDup (map fst s)
  /\ List.length s = 5.
Proof.
  intros H. apply SingleDeploymentStack_fresh in H. cbv zeta in H.
  destruct H as (-> & _ & Hfresh).
  split; [reflexivity|]. split; [|reflexivity].
  cbn [describedStack map fst].
  change ("lambda-storage" :: "Role" :: "helloWorld" :: "logGrouphelloWorld"
            :: [sanitizeId (deploymentName props)])
    with (fixedIds ++ [sanitizeId (deploymentName props)]).
  apply NoDup_app.
  - unfold fixedIds. repeat constructor; cbn; intuition discriminate.
  - repeat constructor. intros [].
  - intros x Hx [<-|[]]. contradiction.
Qed.

Lemma built_stack_ids_witness :
  exists s,
    SingleDeploymentStack 0 sampleProps = inr s
    /\ map fst s = ["lambda-storage"; "Role"; "helloWorld"; "logGrouphelloWorld";
                    "tfn-1636000000000"]
    /\ NoDup (map fst s).
Proof.
  exists (describedStack 0 sampleProps "tfn-1636000000000").
  destruct (@built_stack_ids 0 sampleProps
              (describedStack 0 sampleProps "tfn-1636000000000") eq_refl)
    as (Hids & Hnodup & _).
  split; [reflexivity|]. split; [exact Hids | exact Hnodup].
Defined.

(** X5.  In a built stack the function runs [index.handler] on the
    [NODEJS_14_X] runtime under the role declared as [Role].  That role is
    assumed by [lambda.amazonaws.com] and, although the function was created
    before the statement was added, the role the function refers to carries
    exactly one policy statement: log-event writing and log-stream creation
    on every [/aws/lambda/] log group. *)
Theorem function_role_policy (tokens : nat) (props : SingleDeploymentProps)
  (s : Stack) :
  SingleDeploymentStack tokens props = inr s ->
  exists f r,
    theFunction s = Some f
    /\ lambda.runtime (lambda.props f) = lambda.NODEJS_14_X
    /\ lambda.handler (lambda.props f) = "index.handler"
    /\ tryFindChild (lambda.role (lambda.props f)) s = Some (CRole r)
    /\ iam.assumedBy (iam.props r) = iam.ServicePrincipal "lambda.amazonaws.com"
    /\ iam.policy r
         = [ {| iam.actions := ["logs:PutLogEvents"; "logs:CreateLogStream"];
                iam.resources := ["arn:aws:logs:*:*:log-group:/aws/lambda/*"] |} ].
Proof.
  intros H. apply SingleDeploymentStack_built in H. subst s.
  eexists; eexists. split; [reflexivity|].
  split; [reflexivity|]. split; [reflexivity|]. split; [reflexivity|].
  split; reflexivity.
Qed.

Lemma function_role_policy_witness :
  exists s f r,
    SingleDeploymentStack 0 sampleProps = inr s
    /\ theFunction s = Some f
    /\ tryFindChild (lambda.role (lambda.props f)) s = Some (CRole r)
    /\ List.length (iam.policy r) = 1.
Proof.
  exists (describedStack 0 sampleProps "tfn-1636000000000").
  destruct (@function_role_policy 0 sampleProps
              (describedStack 0 sampleProps "tfn-1636000000000") eq_refl)
    as (f & r & Hf & _ & _ & Hr & _ & Hp).
  exists f, r. split; [reflexivity|]. split; [exact Hf|].
  split; [exact Hr|]. now rewrite Hp.
Defined.

Lemma tryFindChild_fresh_last (api : string) (c : Construct)
  (tokens : nat) (props : SingleDeploymentProps) :
  ~ In api fixedIds ->
  tryFindChild api (describedStack tokens props api)
    = match last (describedStack tokens props api) (api, c) with
      | (_, found) => Some found
      end.
Proof.
  intros Hfresh. unfold fixedIds in Hfresh.
  cbn [describedStack tryFindChild last].
  destruct (String.eqb_spec "lambda-storage" api) as [E|_];
    [exfalso; apply Hfresh; cbn; tauto|].
  destruct (String.eqb_spec "Role" api) as [E|_];
    [exfalso; apply Hfresh; cbn; tauto|].
  destruct (String.eqb_spec "helloWorld" api) as [E|_];
    [exfalso; apply Hfresh; cbn; tauto|].
  destruct (String.eqb_spec "logGrouphelloWorld" api) as [E|_];
    [exfalso; apply Hfresh; cbn; tauto|].
  now rewrite String.eqb_refl.
Qed.

(** The gateway of a built stack, found by its id. *)
Lemma gateway_route_of_built (tokens : nat) (props : SingleDeploymentProps)
  (s : Stack) :
  SingleDeploymentStack tokens props = inr s ->
  exists a,
    tryFindChild (sanitizeId (deploymentName props)) s = Some (CHttpApi a)
    /\ List.length (apigwv2.routes a) = 1.
Proof.
  intros H. apply SingleDeploymentStack_fresh in H. cbv zeta in H.
  destruct H as (-> & _ & Hfresh).
  rewrite (tryFindChild_fresh_last (CBucket {| s3.nodeId := ""; s3.bucketArn := ""; s3.bucketName := "" |})
             tokens props Hfresh).
  cbn [describedStack last]. eexists. split; reflexivity.
Qed.

Lemma sanitizeId_tfn_prefix (x : string) :
  sanitizeId ("tfn-" ++ x) = ("tfn-" ++ sanitizeId x)%string.
Proof. reflexivity. Qed.

(** X6.  In a built stack the construct found under the deployment name
    (path separators replaced) is the gateway, and it has exactly one route:
    any method on the path [/{proxy+}], integrated under the id [lambda]
    with payload format 2.0 to the very function the stack declares. *)
Theorem gateway_single_route (tokens : nat) (props : SingleDeploymentProps)
  (s : Stack) :
  SingleDeploymentStack tokens props = inr s ->
  exists a route f,
    tryFindChild (sanitizeId (deploymentName props)) s = Some (CHttpApi a)
    /\ apigwv2.routes a = [route]
    /\ theFunction s = Some f
    /\ apigwv2.routePath route = "/{proxy+}"
    /\ apigwv2.routeMethod route = apigwv2.ANY
    /\ apigwv2.id (apigwv2.routeIntegration route) = "lambda"
    /\ apigwv2.handler (apigwv2.routeIntegration route) = f
    /\ apigwv2.payloadFormatVersion (apigwv2.routeIntegration route)
         = apigwv2.VERSION_2_0.
Proof.
  intros H. apply SingleDeploymentStack_fresh in H. cbv zeta in H.
  destruct H as (-> & _ & Hfresh).
  rewrite (tryFindChild_fresh_last (CBucket {| s3.nodeId := ""; s3.bucketArn := ""; s3.bucketName := "" |})
             tokens props Hfresh).
  cbn [describedStack last].
  eexists; eexists; eexists.
  split; [reflexivity|]. split; [reflexivity|]. split; [reflexivity|].
  repeat split.
Qed.

Lemma gateway_single_route_witness :
  exists s a,
    SingleDeploymentStack 0 sampleProps = inr s
    /\ tryFindChild "tfn-1636000000000" s = Some (CHttpApi a)
    /\ List.length (apigwv2.routes a) = 1.
Proof.
  exists (describedStack 0 sampleProps "tfn-1636000000000").
  destruct (@gateway_single_route 0 sampleProps
              (describedStack 0 sampleProps "tfn-1636000000000") eq_refl)
    as (a & route & f & Ha & Hr & _).
  exists a. split; [reflexivity|]. split; [exact Ha|]. now rewrite Hr.
Defined.

(* ===================================================================== *)
(** ** Further properties of runs *)
(* ===================================================================== *)



(** X8.  The object key determines what it was made from: two uploads by
    [generateStack] under the same key come from the same deployment name
    and the same token. *)
Theorem object_key_injective
  (I : Imports) (o1 o2 : GenerateStackOptions.t) (w1 w2 : World) :
  map Key (putRequests (fst (generateStack I o1 w1)))
    = map Key (putRequests (fst (generateStack I o2 w2))) ->
  GenerateStackOptions.deploymentName o1 = GenerateStackOptions.deploymentName o2
  /\ randomTokens (fst (generateStack I o1 w1))
       = randomTokens (fst (generateStack I o2 w2)).
Proof.
  destruct (putRequests_generateStack I o1 w1) as (p1 & -> & _ & -> & K1 & _).
  destruct (putRequests_generateStack I o2 w2) as (p2 & -> & _ & -> & K2 & _).
  cbn [map]. rewrite K1, K2. clear K1 K2.
  assert (L1 := toStringHex_length (map (randomSource w1) (seq 0 4))).
  assert (L2 := toStringHex_length (map (randomSource w2) (seq 0 4))).
  revert L1 L2.
  generalize (toStringHex (map (randomSource w1) (seq 0 4))) as u1.
  generalize (toStringHex (map (randomSource w2) (seq 0 4))) as u2.
  intros u2 u1 L1 L2 [= E].
  apply append_inj in E.
  - destruct E as [-> E]. split; [reflexivity|].
    cbn [append] in E. injection E as E.
    apply append_inj in E; [|reflexivity]. now destruct E as [-> _].
  - cbn [append String.length]. now rewrite !length_append, L1, L2.
Qed.

Lemma object_key_injective_witness :
  GenerateStackOptions.deploymentName (mainOptions calmWorld)
    = GenerateStackOptions.deploymentName (mainOptions rejectingWorld)
  /\ randomTokens (fst (generateStack plainImports (mainOptions calmWorld)
                          calmWorld))
     = randomTokens (fst (generateStack plainImports (mainOptions rejectingWorld)
                            rejectingWorld)).
Proof.
  exact (@object_key_injective plainImports (mainOptions calmWorld)
           (mainOptions rejectingWorld) calmWorld rejectingWorld eq_refl).
Defined.

(** X9.  A run that completes did everything, once: its trace is exactly
    clock, token, stream, acknowledged upload, printed template,
    acknowledged stack creation, printed acknowledgement, and the template
    printed and submitted is the conversion of a stack the constructor
    built. *)
Theorem completed_run (I : Imports) (w : World) :
  snd (script I w) = Completed ->
  exists buf file put uploaded stack template command response,
    fst (script I w)
      = [ DateNow (now w);
          RandomBytes 4 buf;
          CreateReadStream file;
          S3Send REGION put (inr uploaded);
          ConsoleLog [LogString "template: ";
                      LogString (JSON_stringify I template (Some 2))];
          CloudFormationSend REGION command (inr response);
          ConsoleLog [LogResponse response] ]
    /\ Body put = {| streamPath := file |}
    /\ SingleDeploymentStack (cdkTokens w)
         {| deploymentName := StackName command;
            lambdaBucketName := Bucket put;
            functionName := StackName command ++ "_" ++ toStringHex buf |}
       = inr stack
    /\ toCloudFormation I stack = inr template
    /\ TemplateBody command = JSON_stringify I template None
    /\ Capabilities command = [CAPABILITY_IAM].
Proof.
  intros H.
  assert (Hmain : fst (script I w) = fst (main I w)
                  /\ exists u, snd (main I w) = inr u).
  { unfold script in *. destruct (main I w) as [t [e|u]]; cbn in *;
      [discriminate | split; [reflexivity | now exists u]]. }
  destruct Hmain as (-> & u & Hu). clear H.
  destruct (run_shape I w) as (tail & Htrace & Hcase).
  rewrite Htrace. rewrite Hu in Hcase.
  destruct (s3Service w REGION _) as [e|out]; [now destruct Hcase|].
  destruct (SingleDeploymentStack _ _) as [e|stack] eqn:Hstack;
    [now destruct Hcase|].
  destruct (toCloudFormation I stack) as [e|template] eqn:Htpl;
    [now destruct Hcase|].
  cbv zeta in Hcase. destruct Hcase as [-> Hres].
  destruct (cloudFormationService w REGION _) as [e|response];
    [discriminate|].
  do 8 eexists. split; [reflexivity|].
  split; [reflexivity|]. split; [exact Hstack|]. split; [exact Htpl|].
  split; reflexivity.
Qed.

Lemma completed_run_witness :
  List.length (fst (script plainImports calmWorld)) = 7.
Proof.
  destruct (@completed_run plainImports calmWorld eq_refl)
    as (buf & file & put & st & stack & template & command & response & Ht & _).
  now rewrite Ht.
Defined.

(** X10.  Every request of every run, to either service, is sent to the one
    region fixed in [REGION]. *)
Theorem requests_go_to_region (I : Imports) (w : World) :
  Forall (sentTo "eu-central-1") (fst (main I w)).
Proof.
  destruct (run_shape I w) as (tail & -> & Hcase).
  repeat constructor.
  destruct (s3Service w REGION _) as [e|out]; [destruct Hcase as [-> _]; constructor|].
  destruct (SingleDeploymentStack _ _) as [e|stack];
    [destruct Hcase as [-> _]; constructor|].
  destruct (toCloudFormation I stack) as [e|template];
    [destruct Hcase as [-> _]; constructor|].
  cbv zeta in Hcase. destruct Hcase as [-> _].
  destruct (cloudFormationService w REGION _); repeat constructor.
Qed.

Lemma sanitizeId_notSlash (s : string) :
  allChars notSlash s = true -> sanitizeId s = s.
Proof.
  induction s as [|c s IH]; [reflexivity|].
  cbn [allChars sanitizeId]. unfold notSlash at 1.
  destruct (Ascii.eqb c "/"); [discriminate|].
  cbn [negb andb]. intros H. now rewrite IH.
Qed.

(** X11.  For the deployment names [main] produces, whatever the clock
    reads, and the bucket [main] passes, the constructor never throws, and
    the gateway is declared under an id that is exactly the stack name. *)
Theorem main_stack_gateway_id (w : World) (tokens : nat) (fn : string) :
  exists s a,
    SingleDeploymentStack tokens
      {| deploymentName := stackNameAt w;
         lambdaBucketName := LAMBDA_BUCKET;
         functionName := fn |} = inr s
    /\ map fst s = fixedIds ++ [stackNameAt w]
    /\ tryFindChild (stackNameAt w) s = Some (CHttpApi a)
    /\ List.length (apigwv2.routes a) = 1.
Proof.
  pose proof (@SingleDeploymentStack_tfn tokens (numberToString (now w))
                LAMBDA_BUCKET fn LAMBDA_BUCKET eq_refl) as Hs.
  cbv zeta in Hs.
  rewrite (sanitizeId_notSlash _ (proj2 (numberToString_name (now w)))) in Hs.
  fold (stackNameAt w) in Hs.
  destruct (gateway_route_of_built _ _ Hs) as (a & Ha & Hr).
  assert (Hid : sanitizeId (stackNameAt w) = stackNameAt w).
  { unfold stackNameAt. rewrite sanitizeId_tfn_prefix.
    now rewrite (sanitizeId_notSlash _ (proj2 (numberToString_name (now w)))). }
  cbn [deploymentName] in Ha. rewrite Hid in Ha.
  eexists; exists a. split; [exact Hs|]. split; [reflexivity|].
  split; [exact Ha | exact Hr].
Qed.

Lemma allChars_isNameChar_underscore (a b : string) :
  allChars isNameChar (a ++ "_" ++ b) = false.
Proof.
  rewrite allChars_append. cbn [append allChars].
  change (isNameChar "_") with false. cbn [andb]. apply andb_false_r.
Qed.

Lemma matchesStackName_allChars (s : string) :
  matchesStackName s = true -> allChars isNameChar s = true.
Proof.
  destruct s as [|c s]; [discriminate|].
  cbn [matchesStackName allChars]. intros H.
  apply andb_true_iff in H. destruct H as [Hc ->].
  unfold isNameChar. rewrite Hc. now rewrite orb_true_r.
Qed.

(** X12.  The artifact name [generateStack] builds, and with it the object
    key, never matches the stack-name pattern, whatever the deployment name
    and the token: the underscore that joins them is not allowed there. *)
Theorem artifact_name_never_stack_name
  (I : Imports) (options : GenerateStackOptions.t) (w : World) :
  forallb (fun put => matchesStackName (Key put))
    (putRequests (fst (generateStack I options w))) = false
  /\ forall uuid : string,
       matchesStackName
         (GenerateStackOptions.deploymentName options ++ "_" ++ uuid) = false.
Proof.
  assert (H : forall a b, matchesStackName (a ++ "_" ++ b) = false).
  { intros a b. destruct (matchesStackName (a ++ "_" ++ b)) eqn:E;
      [|reflexivity].
    apply matchesStackName_allChars in E.
    now rewrite allChars_isNameChar_underscore in E. }
  split; [|intros; apply H].
  destruct (putRequests_generateStack I options w) as (put & -> & _ & _ & K & _).
  cbn [forallb]. rewrite K, H. reflexivity.
Qed.
